(** * Survey-module builder: a shallow embedding of the save and cleanup logic

    The development follows the repository's layers:

    - [JS]       the JavaScript values the code manipulates (objects as
                 ordered property lists, truthiness, [||], spread);
    - [Client]   the resource client [apiService] (createModule,
                 updateModule, deleteModule, getModule, createSurvey,
                 updateSurvey), written against an abstract [fetch];
    - [ListView] the duplicate cleanup of the table view
                 (handleCleanupDuplicates);
    - [Builder]  the AddModule component: its React state and refs, the
                 effect that installs [saveSurveyFunc] on the creator
                 instance, and the save procedure itself, split at its
                 single suspension point.

    Around them: [ClientHealth] (checkServerHealth, getModules, debugInfo),
    [Api] (the first revision of the client, services/api.js), [App] (the
    state and the handlers of the table view, hasDuplicates) and [Builder1]
    (the save procedure of the first revision of AddModule).

    The host platform (network, clock, JSON.stringify, Date parsing) is an
    interface, [Host]; [Scripted] is an instance with canned responses used
    by the closed examples. *)

From Stdlib Require Import List String Ascii ZArith Bool Lia DecimalString.
From Stdlib Require Import Permutation Sorted.
Import ListNotations.

Set Warnings "-register-all".

Local Open Scope list_scope.
Local Open Scope string_scope.

(* ===================================================================== *)
(** ** JavaScript values *)
(* ===================================================================== *)

Module JS.

(** A JavaScript value as far as the program looks at one. Numbers are the
    integer-valued ones (identifiers, epoch milliseconds). An object is the
    list of its own enumerable properties in insertion order. *)
Inductive value : Type :=
| VUndef
| VNull
| VBool (b : bool)
| VNum (n : Z)
| VStr (s : string)
| VArr (items : list value)
| VObj (props : list (string * value)).

Definition obj : Type := list (string * value).

(** ToBoolean. *)
Definition truthy (v : value) : bool :=
  match v with
  | VUndef | VNull => false
  | VBool b => b
  | VNum n => negb (n =? 0)%Z
  | VStr s => negb (s =? "")
  | VArr _ | VObj _ => true
  end.

(** [a || b]. *)
Definition or_else (a b : value) : value := if truthy a then a else b.

Notation "a '|||' b" := (or_else a b) (at level 50, left associativity).

(** [o[k]] on an own-property list: the value, or undefined. *)
Fixpoint get (o : obj) (k : string) : value :=
  match o with
  | [] => VUndef
  | (k', v) :: rest => if k' =? k then v else get rest k
  end.

(** [k in o] for own properties. *)
Fixpoint has (o : obj) (k : string) : bool :=
  match o with
  | [] => false
  | (k', _) :: rest => (k' =? k) || has rest k
  end.

(** [o[k] = v]: an existing property keeps its place, a new one goes last. *)
Fixpoint set (k : string) (v : value) (o : obj) : obj :=
  match o with
  | [] => [(k, v)]
  | (k', v') :: rest => if k' =? k then (k, v) :: rest else (k', v') :: set k v rest
  end.

(** [{...target, ...src}]: a copy of [target]'s properties with those of
    [src] written onto it one by one, left to right. *)
Definition assign (target src : obj) : obj :=
  fold_left (fun acc kv => set (fst kv) (snd kv) acc) src target.

(** Decimal numeral of an integer, as Number.prototype.toString prints it. *)
Definition dec (n : Z) : string := NilZero.string_of_int (Z.to_int n).

(** ToString, as a template literal or a property key applies it. A
    number is printed with all its digits, which is JavaScript's spelling
    for the integers below 10^21 in magnitude (beyond that it prints an
    exponent form); identifiers and epoch milliseconds are far below. *)
Fixpoint to_string (v : value) : string :=
  match v with
  | VUndef => "undefined"
  | VNull => "null"
  | VBool true => "true"
  | VBool false => "false"
  | VNum n => dec n
  | VStr s => s
  | VArr items =>
      (fix join (l : list value) : string :=
         match l with
         | [] => ""
         | x :: rest =>
             let sx := match x with VUndef | VNull => "" | _ => to_string x end in
             match rest with
             | [] => sx
             | _ :: _ => sx ++ "," ++ join rest
             end
         end) items
  | VObj _ => "[object Object]"
  end.

(** [v.k] for a value that is not null or undefined. *)
Definition prop (v : value) (k : string) : value :=
  match v with
  | VObj props => get props k
  | _ => VUndef
  end.

(** The own enumerable properties a spread [...v] copies. Strings and
    arrays spread their indices; the program only ever spreads records. *)
Definition own (v : value) : obj :=
  match v with
  | VObj props => props
  | VArr items => combine (map (fun i => dec (Z.of_nat i)) (seq 0 (List.length items))) items
  | VStr s =>
      combine (map (fun i => dec (Z.of_nat i)) (seq 0 (String.length s)))
              (map (fun c => VStr (String c EmptyString)) (list_ascii_of_string s))
  | _ => []
  end.

(** [Object.keys(v).length]. *)
Definition keys_length (v : value) : nat := List.length (own v).

(** What JSON.stringify keeps of a record: a property whose value is
    undefined is left out of the text. *)
Definition defined (v : value) : bool :=
  match v with VUndef => false | _ => true end.

Definition json_body (o : obj) : obj := filter (fun kv => defined (snd kv)) o.

(** An object literal [{k1: v1, ..., kn: vn}]. *)
Definition literal (fields : list (string * value)) : obj := assign [] fields.

(** A property list denotes an object when no name occurs twice. *)
Definition wf (o : obj) : Prop := NoDup (map fst o).

End JS.

(* ===================================================================== *)
(** ** The host platform: network, clock, serialisation *)
(* ===================================================================== *)

Module Platform.
Import JS.

Inductive Method : Type := GET | POST | PUT | DELETE.

(** The request URL, relative to API_BASE_URL. An identifier reaches the
    URL through a template literal, that is, through [to_string]. *)
Inductive Url : Type :=
| UModules
| UModule (id : string).

Record Request : Type := mkRequest {
  req_method : Method;
  req_url : Url;
  req_body : option obj
}.

(** What the code reads of a fetch response: the status, the body as
    [response.text()] gives it ([None] when reading fails) and as
    [response.json()] gives it (the error message when parsing fails). *)
Record Response : Type := mkResponse {
  status : Z;
  text : option string;
  json : string + value
}.

(** [response.ok]. *)
Definition ok (r : Response) : bool := ((200 <=? status r) && (status r <=? 299))%Z.

(** The services of the browser the program calls. [fetch] either rejects
    with a message or resolves with a response; both clocks are read in the
    world and may advance it. JSON.stringify and the Date constructor's
    parser are pure; [Date_parse] gives the epoch milliseconds, [None]
    standing for NaN. *)
Class Host : Type := {
  World : Type;
  fetch : Request -> World -> (string + Response) * World;
  Date_toISOString : World -> string * World;
  Date_toLocaleDateString : World -> string * World;
  JSON_stringify : value -> string;
  Date_parse : string -> option Z
}.

Section Monad.
Context `{Host}.

(** An asynchronous computation run to completion: it ends with a thrown
    error (its message) or a value, in a new world. *)
Definition M (A : Type) : Type := World -> (string + A) * World.

Definition ret {A : Type} (a : A) : M A := fun w => (inr a, w).

Definition throw {A : Type} (message : string) : M A := fun w => (inl message, w).

Definition bind {A B : Type} (m : M A) (k : A -> M B) : M B :=
  fun w => match m w with
           | (inl e, w') => (inl e, w')
           | (inr a, w') => k a w'
           end.

(** [try { m } catch (error) { h error }]. *)
Definition catch {A : Type} (m : M A) (h : string -> M A) : M A :=
  fun w => match m w with
           | (inl e, w') => h e w'
           | (inr a, w') => (inr a, w')
           end.

Definition toISOString : M string :=
  fun w => let (t, w') := Date_toISOString w in (inr t, w').

Definition toLocaleDateString : M string :=
  fun w => let (t, w') := Date_toLocaleDateString w in (inr t, w').

End Monad.

Notation "x <- m ;; k" := (bind m (fun x => k))
  (at level 61, m at next level, right associativity).

End Platform.

(* ===================================================================== *)
(** ** The resource client (apiService) *)
(* ===================================================================== *)

(** The revision of the client with the update fallback and the handling
    of the two field names (the source file kept without a name); the
    shorter revision under services/api.js has neither. *)

Module Client.
Import JS Platform.

Section WithHost.
Context `{Host}.

(** handleResponse(response, context). *)
Definition handleResponse (response : Response) : M value :=
  if negb (ok response) then
    throw ("HTTP " ++ dec (status response) ++
           match text response with
           | Some errorText => ": " ++ errorText
           | None => ": Unknown error"
           end)
  else
    match json response with
    | inl e => throw e
    | inr v => ret v
    end.

(** getModule(id): a 404 is turned into its own error, any error is
    rethrown as it is. *)
Definition getModule (id : value) : M value :=
  response <- fetch (mkRequest GET (UModule (to_string id)) None) ;;
  if (status response =? 404)%Z
  then throw ("Module with ID " ++ to_string id ++ " not found")
  else handleResponse response.

(** The survey createModule stores when the caller gives none. *)
Definition sampleSurvey : value :=
  VObj [("pages",
         VArr [VObj [("name", VStr "page1");
                     ("elements",
                      VArr [VObj [("type", VStr "text");
                                  ("name", VStr "sample_question");
                                  ("title", VStr "Sample Question")]])]])].

(** The payload createModule builds. *)
Definition createPayload (moduleData : obj) (createdAt updatedAt : string) : obj :=
  literal
    [("name", get moduleData "name" ||| VStr "Untitled Survey");
     ("description", get moduleData "description" ||| VStr "No description provided");
     ("status", get moduleData "status" ||| VStr "Active");
     ("surveyJson", get moduleData "surveyJson" ||| get moduleData "form_data" ||| sampleSurvey);
     ("createdAt", VStr createdAt);
     ("updatedAt", VStr updatedAt)].

Definition createModule (moduleData : obj) : M value :=
  catch
    (createdAt <- toISOString ;;
     updatedAt <- toISOString ;;
     response <- fetch (mkRequest POST UModules
                          (Some (json_body (createPayload moduleData createdAt updatedAt)))) ;;
     handleResponse response)
    (fun e => throw ("Failed to create module: " ++ e)).

(** The payload updateModule builds from the record it fetched: the
    spread of the stored record, the spread of the caller's data, a fresh
    updatedAt, then the two alias assignments. *)
Definition updatePayload (existingModule : value) (moduleData : obj) (updatedAt : string) : obj :=
  let p0 := set "updatedAt" (VStr updatedAt) (assign (own existingModule) moduleData) in
  let p1 :=
    if truthy (get moduleData "form_data") && negb (truthy (get moduleData "surveyJson"))
    then set "surveyJson" (get moduleData "form_data") p0 else p0 in
  if truthy (get moduleData "surveyJson") && negb (truthy (get moduleData "form_data"))
  then set "form_data" (get moduleData "surveyJson") p1 else p1.

(** The record updateModule hands to createModule when the identifier
    cannot be fetched. *)
Definition fallbackData (id : value) (moduleData : obj) : obj :=
  set "name" (get moduleData "name" ||| VStr ("Survey " ++ to_string id)) moduleData.

(** updateModule(id, moduleData). The fallback is returned from inside the
    inner catch without being awaited, so an error of the fallback create
    leaves the function unwrapped; an error of the PUT is wrapped. *)
Definition updateModule (id : value) (moduleData : obj) : M value :=
  fun w =>
    match getModule id w with
    | (inl _, w1) => createModule (fallbackData id moduleData) w1
    | (inr existingModule, w1) =>
        catch
          (updatedAt <- toISOString ;;
           response <- fetch (mkRequest PUT (UModule (to_string id))
                                (Some (json_body (updatePayload existingModule moduleData
                                                                updatedAt)))) ;;
           handleResponse response)
          (fun e => throw ("Failed to update module: " ++ e)) w1
    end.

(** deleteModule(id). *)
Definition deleteModule (id : value) : M value :=
  catch
    (response <- fetch (mkRequest DELETE (UModule (to_string id)) None) ;;
     if (status response =? 404)%Z
     then throw "Module not found"
     else handleResponse response)
    (fun e => throw ("Failed to delete module: " ++ e)).

(** createSurvey(surveyData). *)
Definition createSurvey (surveyData : obj) : M value :=
  createModule
    (literal [("name", get surveyData "name");
              ("description", get surveyData "description");
              ("status", get surveyData "status" ||| VStr "Active");
              ("surveyJson", get surveyData "surveyJson")]).

(** The patch updateSurvey builds from the caller's data. *)
Definition updateData (surveyData : obj) : obj :=
  let d0 : obj := [] in
  let d1 :=
    if truthy (get surveyData "surveyJson")
    then set "form_data" (get surveyData "surveyJson")
           (set "surveyJson" (get surveyData "surveyJson") d0)
    else d0 in
  if truthy (get surveyData "form_data")
  then set "surveyJson" (get surveyData "form_data")
         (set "form_data" (get surveyData "form_data") d1)
  else d1.

(** updateSurvey(id, surveyData). *)
Definition updateSurvey (id : value) (surveyData : obj) : M value :=
  updateModule id (updateData surveyData).

End WithHost.


End Client.

(* ===================================================================== *)
(** ** The table view (App): duplicate cleanup *)
(* ===================================================================== *)

(** The revision of App.jsx that has the cleanup (the first of the two in
    the file). *)

Module ListView.
Import JS Platform.

(** The properties every object literal inherits from Object.prototype.
    Each holds a function (or, for __proto__, the prototype itself), so a
    read of [o[k]] for one of these keys is truthy even when [o] has no
    own property [k], and none of these values has a [push] method. *)
Definition Object_prototype : list string :=
  ["constructor"; "__defineGetter__"; "__defineSetter__"; "hasOwnProperty";
   "__lookupGetter__"; "__lookupSetter__"; "isPrototypeOf";
   "propertyIsEnumerable"; "toString"; "valueOf"; "__proto__"; "toLocaleString"].

Definition inherited (k : string) : bool :=
  existsb (fun p => p =? k) Object_prototype.

(** moduleGroups: the own properties of the grouping object, in insertion
    order, each holding an array of modules. *)
Definition groups : Type := list (string * list obj).

Fixpoint own_group (g : groups) (k : string) : option (list obj) :=
  match g with
  | [] => None
  | (k', grp) :: rest => if k' =? k then Some grp else own_group rest k
  end.

(** [moduleGroups[k].push(module)] for an own property [k]. *)
Fixpoint push (k : string) (module : obj) (g : groups) : groups :=
  match g with
  | [] => []
  | (k', grp) :: rest =>
      if k' =? k then (k', grp ++ [module])%list :: rest
      else (k', grp) :: push k module rest
  end.

(** The property key a module is filed under. *)
Definition group_key (module : obj) : string :=
  to_string (get module "name" ||| VStr "Unnamed").

(** One turn of the forEach callback. [None] is the TypeError raised by
    calling [push] on an inherited value. *)
Definition file_module (g : groups) (module : obj) : option groups :=
  let name := group_key module in
  match own_group g name with
  | Some _ => Some (push name module g)
  | None =>
      if inherited name then None
      else Some (g ++ [(name, [module])])%list
  end.

Fixpoint group_modules (g : groups) (modules : list obj) : option groups :=
  match modules with
  | [] => Some g
  | module :: rest =>
      match file_module g module with
      | Some g' => group_modules g' rest
      | None => None
      end
  end.

(** A property key that is an array index: the canonical numeral of an
    integer below 2^32 - 1. *)
Definition array_index (k : string) : option Z :=
  match NilZero.uint_of_string k with
  | Some d =>
      let n := Z.of_uint d in
      if (dec n =? k) && (n <=? 4294967294)%Z then Some n else None
  | None => None
  end.

Fixpoint insert_index {A : Type} (n : Z) (x : A) (l : list (Z * A)) : list (Z * A) :=
  match l with
  | [] => [(n, x)]
  | (m, y) :: rest =>
      if (n <? m)%Z then (n, x) :: (m, y) :: rest else (m, y) :: insert_index n x rest
  end.

(** Object.entries(moduleGroups): array-index keys in ascending numeric
    order first, then the other keys in insertion order. *)
Definition entries (g : groups) : groups :=
  let indexed :=
    fold_right (fun e acc => match array_index (fst e) with
                             | Some n => insert_index n e acc
                             | None => acc
                             end) [] g in
  (map snd indexed ++
   filter (fun e => match array_index (fst e) with Some _ => false | None => true end) g)%list.

Section WithHost.
Context `{Host}.

(** [new Date(v).getTime()]; [None] is NaN. *)
Definition new_Date (v : value) : option Z :=
  match v with
  | VUndef => None
  | VNull => Some 0%Z
  | VBool b => Some (if b then 1 else 0)%Z
  | VNum n => if (Z.abs n <=? 8640000000000000)%Z then Some n else None
  | VStr s => Date_parse s
  | VArr _ | VObj _ => Date_parse (to_string v)
  end.

Definition stamp (module : obj) : option Z :=
  new_Date (get module "updatedAt" ||| get module "createdAt").

(** The comparator passed to sort: [new Date(b...) - new Date(a...)]. *)
Definition compareFn (a b : obj) : option Z :=
  match stamp b, stamp a with
  | Some tb, Some ta => Some (tb - ta)%Z
  | _, _ => None
  end.

(** Array.prototype.sort moves [a] behind [b] only when the comparator is
    positive; zero and NaN leave the pair in its order (the sort is
    stable). On a group whose dates are all valid the comparator is
    consistent and the stable sorted order, which [sort] computes by
    insertion, is the only result the language allows; with an invalid
    date among valid ones the language leaves the order to the engine. *)
Definition behind (a b : obj) : bool :=
  match compareFn a b with
  | Some v => (0 <? v)%Z
  | None => false
  end.

Fixpoint insert (x : obj) (sorted : list obj) : list obj :=
  match sorted with
  | [] => [x]
  | y :: rest => if behind x y then y :: insert x rest else x :: y :: rest
  end.

Definition sort (group : list obj) : list obj := fold_right insert [] group.

(** sorted.slice(1). *)
Definition slice1 {A : Type} (l : list A) : list A := tl l.

(** The modules the sweep will try to delete in one group. *)
Definition toDelete (group : list obj) : list obj :=
  if (1 <? List.length group)%nat then slice1 (sort group) else [].

(** The inner loop: a failed deletion is logged and the loop goes on. *)
Fixpoint delete_each (deleteModule : value -> M value) (victims : list obj)
    (deletedCount : nat) (w : World) : nat * World :=
  match victims with
  | [] => (deletedCount, w)
  | module :: rest =>
      match deleteModule (get module "id") w with
      | (inr _, w') => delete_each deleteModule rest (S deletedCount) w'
      | (inl _, w') => delete_each deleteModule rest deletedCount w'
      end
  end.

Fixpoint sweep (deleteModule : value -> M value) (gs : groups)
    (deletedCount : nat) (w : World) : nat * World :=
  match gs with
  | [] => (deletedCount, w)
  | (_, group) :: rest =>
      let (n, w') := delete_each deleteModule (toDelete group) deletedCount w in
      sweep deleteModule rest n w'
  end.


(** The epoch milliseconds of a module with a valid date. *)
Definition time (module : obj) : Z :=
  match stamp module with
  | Some t => t
  | None => 0%Z
  end.

(** How the confirmed cleanup ends: the success message with its count
    (followed by a reload), or the failure message of the outer catch. *)
Inductive Outcome : Type :=
| Completed (deletedCount : nat)
| Failed.

(** The onOk handler of handleCleanupDuplicates, over the loaded modules. *)
Definition handleCleanupDuplicates (deleteModule : value -> M value)
    (modules : list obj) (w : World) : Outcome * World :=
  match group_modules [] modules with
  | None => (Failed, w)
  | Some moduleGroups =>
      let (n, w') := sweep deleteModule (entries moduleGroups) 0 w in
      (Completed n, w')
  end.

End WithHost.



End ListView.

(* ===================================================================== *)
(** ** The builder view (AddModule): state, effect and save procedure *)
(* ===================================================================== *)

(** The revision of components/AddModule.jsx with the save status and
    the tracking of the module identifier (the second of the two in the
    file). *)

Module Builder.
Import JS Platform.

(** defaultJson. *)
Definition defaultJson : value :=
  VObj [("pages",
         VArr [VObj [("name", VStr "Name");
                     ("elements",
                      VArr [VObj [("name", VStr "FirstName");
                                  ("title", VStr "Enter your first name:");
                                  ("type", VStr "text")];
                            VObj [("name", VStr "LastName");
                                  ("title", VStr "Enter your last name:");
                                  ("type", VStr "text")]])]])].

(** The two calls saveSurveyFunc can make on the injected service. *)
Inductive ApiCall : Type :=
| CreateSurvey (surveyData : obj)
| UpdateSurvey (id : value) (surveyData : obj).

(** What a run of the save procedure does to its surroundings, in order:
    the widget's acknowledgment callback, a call on the service, the
    localStorage backup, and the two kinds of timer it arms. *)
Inductive Output : Type :=
| Callback (saveNo : nat) (success : bool)
| Call (c : ApiCall)
| LocalStorage_setItem
| SetTimeout_clearStatus (ms : nat)
| SetTimeout_onSave (ms : nat) (result : value).

(** The service calls in a trace, and the failed acknowledgments. *)
Definition calls (out : list Output) : list ApiCall :=
  flat_map (fun o => match o with Call c => [c] | _ => [] end) out.

Definition is_create (c : ApiCall) : bool :=
  match c with CreateSurvey _ => true | UpdateSurvey _ _ => false end.

(** A call that agrees with the identifier [id0]: an update is made under
    it, and only when it is truthy. *)
Definition uses_id (id0 : value) (c : ApiCall) : Prop :=
  match c with
  | CreateSurvey _ => True
  | UpdateSurvey id _ => id = id0 /\ truthy id0 = true
  end.

Definition nacks (out : list Output) : nat :=
  List.length (filter (fun o => match o with Callback _ false => true | _ => false end) out).

Section WithHost.
Context `{Host}.

(** props.apiService: either method may be missing. *)
Record ApiService : Type := mkApi {
  createSurvey : option (obj -> M value);
  updateSurvey : option (value -> obj -> M value)
}.

(** The props the component reads. [p_onSave] says whether
    [typeof onSave === "function"]; [p_stored] is the document parsed from
    localStorage's survey-json entry, if there is one. *)
Record Props : Type := mkProps {
  p_json : value;
  p_surveyData : value;
  p_onSave : bool;
  p_apiService : option ApiService;
  p_stored : option value
}.

(** What [saveSurveyFunc] closed over when the effect created it: the
    props and the [currentModuleId] of the render that ran the effect. *)
Record Instance : Type := mkInstance {
  inst_props : Props;
  inst_currentModuleId : value
}.

(** The component's state (useState) and refs (useRef). *)
Record Session : Type := mkSession {
  creator : option Instance;
  saveStatus : string;
  currentModuleId : value;
  manualSaveRef : bool;
  isSavingRef : bool;
  lastSavedContentRef : string
}.

(** The initial JSON, resolved once. *)
Definition initialJson (p : Props) : value :=
  if truthy (p_json p) then p_json p
  else if truthy (p_surveyData p) &&
          truthy (prop (p_surveyData p) "surveyJson" ||| prop (p_surveyData p) "form_data")
  then prop (p_surveyData p) "surveyJson" ||| prop (p_surveyData p) "form_data"
  else match p_stored p with
       | Some savedJson => savedJson
       | None => defaultJson
       end.

(** The first render: [useState(surveyData?.id || null)] and empty refs. *)
Definition first_render (p : Props) : Session :=
  {| creator := None;
     saveStatus := "";
     currentModuleId :=
       (match p_surveyData p with
        | VUndef | VNull => VUndef
        | sd => prop sd "id"
        end) ||| VNull;
     manualSaveRef := false;
     isSavingRef := false;
     lastSavedContentRef := "" |}.

(** The effect with dependencies [creator, options, onSave, apiService,
    currentModuleId]. Its body is guarded by [if (!creator)]: it builds the
    instance, seeds the designer, installs saveSurveyFunc and stores the
    instance with setCreator; on every later run the guard is false and
    nothing is replaced. *)
Definition effect (p : Props) (s : Session) : Session :=
  match creator s with
  | None =>
      {| creator := Some {| inst_props := p; inst_currentModuleId := currentModuleId s |};
         saveStatus := saveStatus s;
         currentModuleId := currentModuleId s;
         manualSaveRef := manualSaveRef s;
         isSavingRef := isSavingRef s;
         lastSavedContentRef := JSON_stringify (initialJson p ||| defaultJson) |}
  | Some _ => s
  end.

Definition mount (p : Props) : Session := effect p (first_render p).

(** setCurrentModuleId(id): the state changes, the component renders again
    and, [currentModuleId] being a dependency, the effect runs again. *)
Definition setCurrentModuleId (p : Props) (id : value) (s : Session) : Session :=
  effect p
    {| creator := creator s;
       saveStatus := saveStatus s;
       currentModuleId := id;
       manualSaveRef := manualSaveRef s;
       isSavingRef := isSavingRef s;
       lastSavedContentRef := lastSavedContentRef s |}.

Definition setSaveStatus (status : string) (s : Session) : Session :=
  {| creator := creator s;
     saveStatus := status;
     currentModuleId := currentModuleId s;
     manualSaveRef := manualSaveRef s;
     isSavingRef := isSavingRef s;
     lastSavedContentRef := lastSavedContentRef s |}.

Definition set_isSaving (b : bool) (s : Session) : Session :=
  {| creator := creator s;
     saveStatus := saveStatus s;
     currentModuleId := currentModuleId s;
     manualSaveRef := manualSaveRef s;
     isSavingRef := b;
     lastSavedContentRef := lastSavedContentRef s |}.

Definition set_manualSave (b : bool) (s : Session) : Session :=
  {| creator := creator s;
     saveStatus := saveStatus s;
     currentModuleId := currentModuleId s;
     manualSaveRef := b;
     isSavingRef := isSavingRef s;
     lastSavedContentRef := lastSavedContentRef s |}.

Definition set_lastSavedContent (content : string) (s : Session) : Session :=
  {| creator := creator s;
     saveStatus := saveStatus s;
     currentModuleId := currentModuleId s;
     manualSaveRef := manualSaveRef s;
     isSavingRef := isSavingRef s;
     lastSavedContentRef := content |}.

(** The frame of a save suspended at its [await]: the arguments and locals
    the rest of the function reads, and the promise it waits for. *)
Record Frame : Type := mkFrame {
  f_saveNo : nat;
  f_currentContent : string;
  f_call : ApiCall;
  f_promise : M value
}.

(** How the synchronous part of a save ends. *)
Inductive Suspended : Type :=
| Returned (s : Session) (out : list Output)
| Awaiting (s : Session) (out : list Output) (frame : Frame).

(** The catch and finally blocks. *)
Definition save_failed (saveNo : nat) (message : string) (s : Session) : Session * list Output :=
  (set_isSaving false (setSaveStatus ("Save failed: " ++ message) s),
   [SetTimeout_clearStatus 5000; Callback saveNo false]).

(** The validation of the document. *)
Definition empty_document (surveyJson : value) : bool :=
  negb (truthy surveyJson) || (keys_length surveyJson =? 0)%nat.

(** saveSurveyFunc(saveNo, callback) up to its await; [doc] is
    [instance.JSON] at the time of the call. The console calls are left
    out, and the widget's callback is taken not to throw. *)
Definition saveSurveyFunc_begin (inst : Instance) (doc : value) (saveNo : nat)
    (s : Session) (w : World) : Suspended * World :=
  if isSavingRef s then (Returned s [Callback saveNo true], w)
  else
    let currentContent := JSON_stringify doc in
    if (currentContent =? lastSavedContentRef s) && negb (manualSaveRef s)
    then (Returned s [Callback saveNo true], w)
    else
      let s1 := setSaveStatus "Saving..." (set_isSaving true s) in
      let surveyJson := doc in
      let failed message :=
        let (s', out) := save_failed saveNo message s1 in Returned s' out in
      if empty_document surveyJson then (failed "Survey data is empty", w)
      else
        let api := p_apiService (inst_props inst) in
        match (if truthy (inst_currentModuleId inst)
               then match api with Some a => updateSurvey a | None => None end
               else None) with
        | Some update =>
            let arg := literal [("surveyJson", surveyJson)] in
            let call := UpdateSurvey (inst_currentModuleId inst) arg in
            (Awaiting s1 [Call call]
               (mkFrame saveNo currentContent call
                  (update (inst_currentModuleId inst) arg)), w)
        | None =>
            match (match api with Some a => createSurvey a | None => None end) with
            | Some create =>
                let (surveyName, w1) :=
                  if truthy (prop surveyJson "title") then (prop surveyJson "title", w)
                  else let (d1, w1) := Date_toLocaleDateString w in
                       (VStr ("Survey " ++ d1), w1) in
                let (d2, w2) := Date_toLocaleDateString w1 in
                let arg :=
                  literal [("name", surveyName);
                           ("description", VStr ("Created on " ++ d2));
                           ("status", VStr "Active");
                           ("surveyJson", surveyJson)] in
                let call := CreateSurvey arg in
                (Awaiting s1 [Call call] (mkFrame saveNo currentContent call (create arg)), w2)
            | None => (failed "No API service available", w)
            end
        end.

(** The rest of saveSurveyFunc, once the awaited call has settled with
    [r]: the remainder of the try block on a value, the catch block on an
    error, the finally block in both cases. *)
Definition saveSurveyFunc_resume (inst : Instance) (frame : Frame)
    (r : string + value) (s : Session) : Session * list Output :=
  match r with
  | inl message => save_failed (f_saveNo frame) message s
  | inr result =>
      let s1 :=
        match f_call frame with
        | UpdateSurvey _ _ => setSaveStatus "Updated successfully!" s
        | CreateSurvey _ =>
            setSaveStatus "Created successfully!"
              (if truthy result && truthy (prop result "id")
               then setCurrentModuleId (inst_props inst) (prop result "id") s
               else s)
        end in
      let s2 := set_lastSavedContent (f_currentContent frame) s1 in
      let navigate :=
        if manualSaveRef s2 && p_onSave (inst_props inst)
        then [SetTimeout_onSave 1000 result] else [] in
      (set_isSaving false (set_manualSave false s2),
       [LocalStorage_setItem; Callback (f_saveNo frame) true; SetTimeout_clearStatus 2000]
         ++ navigate)%list
  end.

(** The synchronous part of a save ends in one of four ways. *)
Inductive begin_case (inst : Instance) (doc : value) (saveNo : nat) (s : Session)
    (w : World) : Suspended * World -> Prop :=
| begin_in_flight :
    isSavingRef s = true ->
    begin_case inst doc saveNo s w (Returned s [Callback saveNo true], w)
| begin_unchanged :
    isSavingRef s = false ->
    (JSON_stringify doc =? lastSavedContentRef s) && negb (manualSaveRef s) = true ->
    begin_case inst doc saveNo s w (Returned s [Callback saveNo true], w)
| begin_rejected (message : string) :
    isSavingRef s = false ->
    (JSON_stringify doc =? lastSavedContentRef s) && negb (manualSaveRef s) = false ->
    (message = "Survey data is empty" /\ empty_document doc = true \/
     message = "No API service available" /\ empty_document doc = false) ->
    begin_case inst doc saveNo s w
      (Returned (set_isSaving false
                   (setSaveStatus ("Save failed: " ++ message)
                      (setSaveStatus "Saving..." (set_isSaving true s))))
                [SetTimeout_clearStatus 5000; Callback saveNo false], w)
| begin_awaiting (frame : Frame) (w' : World) :
    isSavingRef s = false ->
    (JSON_stringify doc =? lastSavedContentRef s) && negb (manualSaveRef s) = false ->
    empty_document doc = false ->
    f_saveNo frame = saveNo ->
    f_currentContent frame = JSON_stringify doc ->
    (is_create (f_call frame) = false -> truthy (inst_currentModuleId inst) = true) ->
    (forall id surveyData, f_call frame = UpdateSurvey id surveyData ->
                           id = inst_currentModuleId inst) ->
    begin_case inst doc saveNo s w
      (Awaiting (setSaveStatus "Saving..." (set_isSaving true s)) [Call (f_call frame)] frame, w').

(** *** The component as a machine

    One logical thread: the widget asks for a save (its autosave, after
    the debounce), the user presses Ctrl+S (handleKeyDown sets
    manualSaveRef and calls instance.doSave(), which calls saveSurveyFunc),
    or the outstanding call settles. [inflight] holds the frames of the
    saves suspended at their await, oldest first. The awaited call is run
    on the world when it settles; no other event touches the world of a
    builder whose save is suspended. *)
Record Machine : Type := mkMachine {
  session : Session;
  inflight : list Frame;
  world : World
}.

Inductive Event : Type :=
| DoSave (doc : value) (saveNo : nat)
| KeyDown_CtrlS (doc : value) (saveNo : nat)
| Settle.

Definition start (p : Props) (w : World) : Machine :=
  {| session := mount p; inflight := []; world := w |}.

Definition call_saveSurveyFunc (inst : Instance) (doc : value) (saveNo : nat)
    (s : Session) (m : Machine) : Machine * list Output :=
  match saveSurveyFunc_begin inst doc saveNo s (world m) with
  | (Returned s' out, w') => ({| session := s'; inflight := inflight m; world := w' |}, out)
  | (Awaiting s' out frame, w') =>
      ({| session := s'; inflight := (inflight m ++ [frame])%list; world := w' |}, out)
  end.

Definition step (m : Machine) (e : Event) : Machine * list Output :=
  match creator (session m) with
  | None => (m, [])
  | Some inst =>
      match e with
      | DoSave doc saveNo => call_saveSurveyFunc inst doc saveNo (session m) m
      | KeyDown_CtrlS doc saveNo =>
          call_saveSurveyFunc inst doc saveNo (set_manualSave true (session m)) m
      | Settle =>
          match inflight m with
          | [] => (m, [])
          | frame :: rest =>
              let (r, w') := f_promise frame (world m) in
              let (s', out) := saveSurveyFunc_resume inst frame r (session m) in
              ({| session := s'; inflight := rest; world := w' |}, out)
          end
      end
  end.

Fixpoint run (m : Machine) (events : list Event) : Machine * list Output :=
  match events with
  | [] => (m, [])
  | e :: rest =>
      let (m1, out1) := step m e in
      let (m2, out2) := run m1 rest in
      (m2, (out1 ++ out2)%list)
  end.

(** An event of a run of autosave triggers on one document: the trigger
    itself, or the settling of the outstanding call. *)
Definition autosave_of (doc : value) (e : Event) : Prop :=
  e = Settle \/ exists saveNo, e = DoSave doc saveNo.

(** A run of autosave triggers on one document, as events: [Some saveNo]
    is a trigger with that number, [None] the settling of the outstanding
    call. *)
Definition autosaves (doc : value) (script : list (option nat)) : list Event :=
  map (fun t => match t with
                | Some saveNo => DoSave doc saveNo
                | None => Settle
                end) script.

(** The calls a run of autosave triggers on [doc] may still issue beyond
    one per failure: none when the outstanding save carries this content or
    when this content is the last persisted one and no manual save is
    pending, one otherwise. *)
Definition budget (doc : value) (m : Machine) : nat :=
  match inflight m with
  | [] =>
      if (JSON_stringify doc =? lastSavedContentRef (session m))
         && negb (manualSaveRef (session m))
      then 0 else 1
  | frame :: _ =>
      if f_currentContent frame =? JSON_stringify doc then 0 else 1
  end.

(** Whether an event is the settling of a call that failed: the awaited
    call of the oldest suspended save is rejected. *)
Definition call_fails (m : Machine) (e : Event) : bool :=
  match e, creator (session m), inflight m with
  | Settle, Some _, frame :: _ =>
      match fst (f_promise frame (world m)) with
      | inl _ => true
      | inr _ => false
      end
  | _, _, _ => false
  end.

(** The calls that fail in the course of a run. *)
Fixpoint failed_calls (m : Machine) (events : list Event) : nat :=
  match events with
  | [] => 0
  | e :: rest =>
      ((if call_fails m e then 1 else 0) + failed_calls (fst (step m e)) rest)%nat
  end.

(** The guard and the frames agree: the flag is up exactly while one save
    is suspended, and no more than one is. *)
Definition guarded (m : Machine) : Prop :=
  (List.length (inflight m) <= 1)%nat /\
  (isSavingRef (session m) = true <-> inflight m <> []).

End WithHost.

End Builder.

(* ===================================================================== *)
(** ** A scripted host for the closed examples *)
(* ===================================================================== *)

Module Scripted.
Import JS Platform.

(** A transport that answers from a fixed script, one entry per request,
    and records what was sent; with the script used up, fetch rejects.
    The clock counts its readings. *)
Record net : Type := mkNet {
  script : list (string + Response);
  sent : list Request;
  clock : nat
}.

Definition scripted_fetch (r : Request) (w : net) : (string + Response) * net :=
  match script w with
  | [] => (inl "Failed to fetch", mkNet [] (sent w ++ [r])%list (clock w))
  | answer :: rest => (answer, mkNet rest (sent w ++ [r])%list (clock w))
  end.

Definition tick (label : string) (w : net) : string * net :=
  (label ++ dec (Z.of_nat (clock w)), mkNet (script w) (sent w) (S (clock w))).

Definition quote : string := String (ascii_of_nat 34) EmptyString.

(** A compact printer standing for JSON.stringify (no escapes). *)
Fixpoint render (v : value) : string :=
  match v with
  | VUndef | VNull => "null"
  | VBool true => "true"
  | VBool false => "false"
  | VNum n => dec n
  | VStr s => quote ++ s ++ quote
  | VArr items =>
      "[" ++ (fix go (l : list value) : string :=
                match l with
                | [] => ""
                | x :: rest =>
                    render x ++ match rest with [] => "" | _ :: _ => "," ++ go rest end
                end) items ++ "]"
  | VObj props =>
      "{" ++ (fix go (l : list (string * value)) : string :=
                match l with
                | [] => ""
                | (k, x) :: rest =>
                    quote ++ k ++ quote ++ ":" ++ render x ++
                    match rest with [] => "" | _ :: _ => "," ++ go rest end
                end) props ++ "}"
  end.

(** The scripted parser of date text: a decimal numeral is read as epoch
    milliseconds, anything else is an invalid date. *)
Definition epoch_numeral (s : string) : option Z :=
  match NilZero.int_of_string s with
  | Some d => Some (Z.of_int d)
  | None => None
  end.

#[export] Instance host : Host := {|
  World := net;
  fetch := scripted_fetch;
  Date_toISOString := tick "T";
  Date_toLocaleDateString := tick "D";
  JSON_stringify := render;
  Date_parse := epoch_numeral
|}.

(** A response with a JSON body. *)
Definition respond (code : Z) (body : value) : string + Response :=
  inr (mkResponse code (Some (render body)) (inr body)).

(** A response whose body is plain text, as json-server sends with 404. *)
Definition respond_text (code : Z) (body : string) : string + Response :=
  inr (mkResponse code (Some body) (inl "Unexpected token in JSON")).

Definition fresh (answers : list (string + Response)) : net := mkNet answers [] 0.

(** The injected service of App: the resource client itself. *)
Definition apiService : Builder.ApiService :=
  Builder.mkApi (Some Client.createSurvey)
                (Some (fun id surveyData => Client.updateSurvey id surveyData)).

(** The builder as App opens it from Create New Survey: no surveyData,
    the json prop not passed. *)
Definition newSurvey : Builder.Props :=
  Builder.mkProps VUndef VNull true (Some apiService) None.

(** A stored module, and the builder as App opens it from Edit. *)
Definition storedModule (id : Z) (name : string) (surveyJson : value) : value :=
  VObj [("id", VNum id);
        ("name", VStr name);
        ("description", VStr "Created on D0");
        ("status", VStr "Active");
        ("surveyJson", surveyJson);
        ("createdAt", VStr "T0");
        ("updatedAt", VStr "T1")].

Definition survey (title : string) : value := VObj [("title", VStr title)].

Definition editSurvey : Builder.Props :=
  Builder.mkProps VUndef (storedModule 7 "Intake" (survey "Intake")) true (Some apiService) None.

End Scripted.


(* ===================================================================== *)
(** ** The resource client: server health, listing and diagnostics *)
(* ===================================================================== *)

(** The rest of the client revision embedded in [Client]:
    checkServerHealth, getModules and debugInfo. *)

Module ClientHealth.
Import JS Platform Client.

(** API_BASE_URL. *)
Definition API_BASE_URL : string := "http://localhost:4000".

(** The error getModules raises when the probe fails. *)
Definition not_running : string :=
  "json-server is not running. Please start it with: json-server --watch db.json --port 3001".

Section WithHost.
Context `{Host}.

(** The request of checkServerHealth, a fetch of /modules?_limit=1. Its
    URL carries a query, which [Url] has no form for, so what the
    transport does with that one request is given on its own. *)
Variable fetch_probe : M Response.

(** checkServerHealth(): whether the probe is answered with a 2xx status;
    a rejected fetch is logged and counts as unhealthy. *)
Definition checkServerHealth : M bool :=
  fun w => match fetch_probe w with
           | (inr response, w') => (inr (ok response), w')
           | (inl _, w') => (inr false, w')
           end.

(** [v.length]. On null and undefined the read raises a TypeError (the
    wording is V8's); a string has its number of code units, an array its
    number of items, a record its own property of that name, and a number
    or a boolean has none. *)
Definition length_of (v : value) : M value :=
  match v with
  | VUndef => throw "Cannot read properties of undefined (reading 'length')"
  | VNull => throw "Cannot read properties of null (reading 'length')"
  | VBool _ | VNum _ => ret VUndef
  | VStr s => ret (VNum (Z.of_nat (String.length s)))
  | VArr items => ret (VNum (Z.of_nat (List.length items)))
  | VObj props => ret (get props "length")
  end.

(** getModules(). The log line after the response reads [result.length],
    inside the try block. *)
Definition getModules : M value :=
  catch
    (isServerHealthy <- checkServerHealth ;;
     if negb isServerHealthy then throw not_running
     else
       (response <- fetch (mkRequest GET UModules None) ;;
        result <- handleResponse response ;;
        _ <- length_of result ;;
        ret result))
    (fun e => throw ("Failed to fetch modules: " ++ e)).

(** debugInfo(). *)
Definition debugInfo : M value :=
  catch
    (health <- checkServerHealth ;;
     modules <- (if health then getModules else ret (VArr [])) ;;
     moduleCount <- length_of modules ;;
     timestamp <- toISOString ;;
     ret (VObj (literal [("serverHealthy", VBool health);
                         ("moduleCount", moduleCount);
                         ("apiBaseUrl", VStr API_BASE_URL);
                         ("timestamp", VStr timestamp)])))
    (fun e =>
       timestamp <- toISOString ;;
       ret (VObj (literal [("serverHealthy", VBool false);
                           ("error", VStr e);
                           ("apiBaseUrl", VStr API_BASE_URL);
                           ("timestamp", VStr timestamp)]))).

End WithHost.

(** The probe on the scripted transport: it takes the next answer of the
    script, as any request does. *)
Definition scripted_probe : M (H := Scripted.host) Response :=
  fun w => match Scripted.script w with
           | [] => (inl "Failed to fetch", w)
           | answer :: rest =>
               (answer, Scripted.mkNet rest (Scripted.sent w) (Scripted.clock w))
           end.

End ClientHealth.

(* ===================================================================== *)
(** ** The first revision of the client (services/api.js) *)
(* ===================================================================== *)

(** The client as App imports it from services/api.js: no health probe, no
    fallback, fixed error messages, and an update that is a read followed
    by a write. *)

Module Api.
Import JS Platform.

Section WithHost.
Context `{Host}.

(** [response.json()]. *)
Definition json_of (response : Response) : M value :=
  match json response with
  | inl e => throw e
  | inr v => ret v
  end.

(** What every method does with its response. *)
Definition expect_ok (failure : string) (response : Response) : M value :=
  if negb (ok response) then throw failure else json_of response.

Definition getModules : M value :=
  response <- fetch (mkRequest GET UModules None) ;;
  expect_ok "Failed to fetch modules" response.

(** The body of createModule's POST: the spread of the caller's data and
    the time of creation. *)
Definition createBody (moduleData : obj) (createdAt : string) : obj :=
  set "createdAt" (VStr createdAt) (assign [] moduleData).

Definition createModule (moduleData : obj) : M value :=
  createdAt <- toISOString ;;
  response <- fetch (mkRequest POST UModules (Some (json_body (createBody moduleData createdAt)))) ;;
  expect_ok "Failed to create module" response.

(** The body of updateModule's PUT. *)
Definition updateBody (moduleData : obj) (updatedAt : string) : obj :=
  set "updatedAt" (VStr updatedAt) (assign [] moduleData).

Definition updateModule (id : value) (moduleData : obj) : M value :=
  updatedAt <- toISOString ;;
  response <- fetch (mkRequest PUT (UModule (to_string id))
                       (Some (json_body (updateBody moduleData updatedAt)))) ;;
  expect_ok "Failed to update module" response.

Definition deleteModule (id : value) : M value :=
  response <- fetch (mkRequest DELETE (UModule (to_string id)) None) ;;
  expect_ok "Failed to delete module" response.

Definition getModule (id : value) : M value :=
  response <- fetch (mkRequest GET (UModule (to_string id)) None) ;;
  expect_ok "Failed to fetch module" response.

Definition createSurvey (surveyData : obj) : M value :=
  createModule
    (literal [("name", get surveyData "name");
              ("description", get surveyData "description");
              ("status", get surveyData "status" ||| VStr "Active");
              ("surveyJson", get surveyData "surveyJson")]).

(** The record updateSurvey writes back: the stored module with its
    surveyJson replaced. *)
Definition merged (existingModule : value) (surveyData : obj) : obj :=
  set "surveyJson" (get surveyData "surveyJson") (assign [] (own existingModule)).

Definition updateSurvey (id : value) (surveyData : obj) : M value :=
  existingModule <- getModule id ;;
  updateModule id (merged existingModule surveyData).

End WithHost.

End Api.

(* ===================================================================== *)
(** ** The table view (App): state, handlers and the duplicate banner *)
(* ===================================================================== *)

(** The rest of the revision of App.jsx embedded in [ListView]: the
    component's state, its handlers, hasDuplicates, and the confirmed
    cleanup as the component runs it. An asynchronous handler is run to
    its end; a call that is not awaited (loadModules() at the end of a
    handler) is run after the rest of its caller, which is the order in
    which their state updates land. *)

Module App.
Import JS Platform.

(** What the handlers show or arm: antd's message.success and
    message.error, and the timer of handleSave. *)
Inductive Output : Type :=
| Message_success (content : string)
| Message_error (content : string)
| SetTimeout_loadModules (ms : nat).

(** The state of the component (useState). *)
Record State : Type := mkState {
  currentView : string;
  modules : value;
  loading : bool;
  editingModule : value;
  viewMode : string
}.

(** The first render. *)
Definition initial : State :=
  {| currentView := "table";
     modules := VArr [];
     loading := false;
     editingModule := VNull;
     viewMode := "edit" |}.

Definition setCurrentView (view : string) (s : State) : State :=
  {| currentView := view;
     modules := modules s;
     loading := loading s;
     editingModule := editingModule s;
     viewMode := viewMode s |}.

Definition setModules (data : value) (s : State) : State :=
  {| currentView := currentView s;
     modules := data;
     loading := loading s;
     editingModule := editingModule s;
     viewMode := viewMode s |}.

Definition setLoading (b : bool) (s : State) : State :=
  {| currentView := currentView s;
     modules := modules s;
     loading := b;
     editingModule := editingModule s;
     viewMode := viewMode s |}.

Definition setEditingModule (module : value) (s : State) : State :=
  {| currentView := currentView s;
     modules := modules s;
     loading := loading s;
     editingModule := module;
     viewMode := viewMode s |}.

Definition setViewMode (mode : string) (s : State) : State :=
  {| currentView := currentView s;
     modules := modules s;
     loading := loading s;
     editingModule := editingModule s;
     viewMode := mode |}.

(** handleEditModule(module). *)
Definition handleEditModule (module : value) (s : State) : State :=
  setCurrentView "builder" (setViewMode "edit" (setEditingModule module s)).

(** handleViewModule(module). *)
Definition handleViewModule (module : value) (s : State) : State :=
  setCurrentView "builder" (setViewMode "view" (setEditingModule module s)).

(** handleAddModule(). *)
Definition handleAddModule (s : State) : State :=
  setCurrentView "builder" (setViewMode "edit" (setEditingModule VNull s)).

(** SameValueZero on the names of parsed modules. A name that is an object
    or an array is a fresh one in every module, so it is the same as no
    other. *)
Definition sameValueZero (a b : value) : bool :=
  match a, b with
  | VUndef, VUndef => true
  | VNull, VNull => true
  | VBool x, VBool y => Bool.eqb x y
  | VNum x, VNum y => (x =? y)%Z
  | VStr x, VStr y => x =? y
  | _, _ => false
  end.

(** [new Set(names)]: the members, in the order they were first added. *)
Fixpoint Set_of (names : list value) (members : list value) : list value :=
  match names with
  | [] => members
  | name :: rest =>
      Set_of rest (if existsb (sameValueZero name) members then members
                   else members ++ [name])
  end.

(** hasDuplicates(), over the loaded modules. *)
Definition hasDuplicates (modules : list obj) : bool :=
  let names := map (fun m => get m "name") modules in
  negb (List.length names =? List.length (Set_of names []))%nat.

(** The loaded data as the list of modules the cleanup and the banner walk
    through: [None] when the walk raises a TypeError, the data not being
    an array or holding a null. Of a member only the properties name,
    updatedAt, createdAt and id are read. *)
Definition rows (data : value) : option (list obj) :=
  match data with
  | VArr items =>
      if forallb (fun v => match v with VUndef | VNull => false | _ => true end) items
      then Some (map own items) else None
  | _ => None
  end.

(** What the component renders: the builder, with the surveyData prop it
    passes to AddModule; or the table, with its rows, its loading flag and
    whether the duplicate banner and button are shown; or nothing, when
    hasDuplicates raises a TypeError during the render. *)
Inductive Screen : Type :=
| AddModule_with (surveyData : value)
| Table_of (dataSource : value) (loading : bool) (duplicates : bool)
| Render_error.

Definition render (s : State) : Screen :=
  if currentView s =? "builder" then AddModule_with (editingModule s)
  else match rows (modules s) with
       | Some loaded => Table_of (modules s) (loading s) (hasDuplicates loaded)
       | None => Render_error
       end.

Section WithHost.
Context `{Host}.

(** The two methods of the imported apiService the component calls. *)
Variable getModules : M value.
Variable deleteModule : value -> M value.

(** loadModules(). *)
Definition loadModules (s : State) (w : World) : State * list Output * World :=
  let s1 := setLoading true s in
  match getModules w with
  | (inr data, w') => (setLoading false (setModules data s1), [], w')
  | (inl _, w') => (setLoading false s1, [Message_error "Failed to load modules"], w')
  end.

(** handleDeleteModule(id). *)
Definition handleDeleteModule (id : value) (s : State) (w : World)
    : State * list Output * World :=
  match deleteModule id w with
  | (inr _, w1) =>
      let '(s', out, w2) := loadModules s w1 in
      (s', Message_success "Module deleted successfully" :: out, w2)
  | (inl _, w1) => (s, [Message_error "Failed to delete module"], w1)
  end.

(** handleBackToTable(). *)
Definition handleBackToTable (s : State) (w : World) : State * list Output * World :=
  loadModules (setViewMode "edit" (setEditingModule VNull (setCurrentView "table" s))) w.

(** handleSave(surveyData). *)
Definition handleSave (surveyData : value) (s : State) : State * list Output :=
  (s, [Message_success "Survey saved successfully!"; SetTimeout_loadModules 1000]).

(** The message of a completed cleanup. *)
Definition cleanup_completed (deletedCount : nat) : string :=
  "Cleanup completed! Removed " ++ dec (Z.of_nat deletedCount) ++ " duplicate modules.".

(** The onOk handler of the confirmation handleCleanupDuplicates opens,
    around the grouping and the sweep of [ListView]. *)
Definition handleCleanupDuplicates_onOk (s : State) (w : World)
    : State * list Output * World :=
  let s1 := setLoading true s in
  let failed w' := (setLoading false s1, [Message_error "Failed to cleanup duplicates"], w') in
  match rows (modules s) with
  | None => failed w
  | Some loaded =>
      match ListView.handleCleanupDuplicates deleteModule loaded w with
      | (ListView.Failed, w1) => failed w1
      | (ListView.Completed deletedCount, w1) =>
          let '(s', out, w2) := loadModules s1 w1 in
          (s', Message_success (cleanup_completed deletedCount) :: out, w2)
      end
  end.

(** What happens to the component: its first effect, the buttons of the
    table, the two confirmations, the callbacks the builder is given, and
    the timer of handleSave. *)
Inductive Event : Type :=
| Mounted
| Click_Add
| Click_Edit (record : value)
| Click_View (record : value)
| Confirm_Delete (id : value)
| Confirm_Cleanup
| Builder_onBack
| Builder_onSave (surveyData : value)
| Timer_loadModules.

Definition step (s : State) (w : World) (e : Event) : State * list Output * World :=
  match e with
  | Mounted => loadModules s w
  | Click_Add => (handleAddModule s, [], w)
  | Click_Edit record => (handleEditModule record s, [], w)
  | Click_View record => (handleViewModule record s, [], w)
  | Confirm_Delete id => handleDeleteModule id s w
  | Confirm_Cleanup => handleCleanupDuplicates_onOk s w
  | Builder_onBack => handleBackToTable s w
  | Builder_onSave surveyData => let (s', out) := handleSave surveyData s in (s', out, w)
  | Timer_loadModules => loadModules s w
  end.

Fixpoint run (s : State) (w : World) (events : list Event) : State * list Output * World :=
  match events with
  | [] => (s, [], w)
  | e :: rest =>
      let '(s1, out1, w1) := step s w e in
      let '(s2, out2, w2) := run s1 w1 rest in
      (s2, (out1 ++ out2)%list, w2)
  end.

End WithHost.

(** The state at rest: nothing is loading, the view is one of the two, and
    the table is shown with no module being edited, in edit mode. *)
Definition at_rest (s : State) : Prop :=
  loading s = false /\
  (currentView s = "table" \/ currentView s = "builder") /\
  (currentView s = "table" -> editingModule s = VNull /\ viewMode s = "edit").

End App.

(* ===================================================================== *)
(** ** The builder view: acknowledgments *)
(* ===================================================================== *)

Module BuilderTrace.
Import JS Platform Builder.

(** The save numbers the widget's callback was invoked with, in order. *)
Definition acks (out : list Output) : list nat :=
  flat_map (fun o => match o with Callback saveNo _ => [saveNo] | _ => [] end) out.

(** The save numbers of the saves asked for, in order. *)
Definition triggers (events : list Event) : list nat :=
  flat_map (fun e => match e with
                     | DoSave _ saveNo | KeyDown_CtrlS _ saveNo => [saveNo]
                     | Settle => []
                     end) events.

Section WithHost.
Context `{Host}.

(** The save numbers of the saves suspended at their await. *)
Definition pending (m : Machine) : list nat := map f_saveNo (inflight m).

(** Whether the service the instance closed over has the method a save
    would call. *)
Definition can_call (inst : Instance) : bool :=
  match p_apiService (inst_props inst) with
  | None => false
  | Some api =>
      match createSurvey api with
      | Some _ => true
      | None =>
          truthy (inst_currentModuleId inst) &&
          match updateSurvey api with Some _ => true | None => false end
      end
  end.

End WithHost.

End BuilderTrace.

(* ===================================================================== *)
(** ** The builder view, first revision *)
(* ===================================================================== *)

(** The first of the two revisions of components/AddModule.jsx: the save
    procedure without the in-flight guard, the content check and the
    identifier state. *)

Module Builder1.
Import JS Platform.

(** What a run of the save procedure does to its surroundings. *)
Inductive Output : Type :=
| Callback (saveNo : nat) (success : bool)
| Call (c : Builder.ApiCall)
| LocalStorage_setItem
| OnSave.

Definition calls (out : list Output) : list Builder.ApiCall :=
  flat_map (fun o => match o with Call c => [c] | _ => [] end) out.

Section WithHost.
Context `{Host}.

(** The frame of a save suspended at its [await]. *)
Record Frame : Type := mkFrame {
  f_saveNo : nat;
  f_call : Builder.ApiCall;
  f_promise : M value
}.

(** How the synchronous part of a save ends; the state is manualSaveRef. *)
Inductive Suspended : Type :=
| Returned (manualSaveRef : bool) (out : list Output)
| Awaiting (out : list Output) (frame : Frame).

(** The rest of the try block after the branches. *)
Definition saved (p : Builder.Props) (saveNo : nat) (manualSaveRef : bool)
    : bool * list Output :=
  (false,
   [LocalStorage_setItem; Callback saveNo true] ++
   (if manualSaveRef && Builder.p_onSave p then [OnSave] else []))%list.

(** saveSurveyFunc(saveNo, callback) up to its await; [doc] is
    [instance.JSON]. The read of [surveyJson.title] in the create branch
    raises a TypeError on null and undefined, which the catch block
    answers with a failed acknowledgment. *)
Definition saveSurveyFunc_begin (p : Builder.Props) (doc : value) (saveNo : nat)
    (manualSaveRef : bool) (w : World) : Suspended * World :=
  let surveyJson := doc in
  let surveyData := Builder.p_surveyData p in
  let api := Builder.p_apiService p in
  match (if truthy surveyData && truthy (prop surveyData "id")
         then match api with Some a => Builder.updateSurvey a | None => None end
         else None) with
  | Some update =>
      let arg := literal [("surveyJson", surveyJson)] in
      let call := Builder.UpdateSurvey (prop surveyData "id") arg in
      (Awaiting [Call call] (mkFrame saveNo call (update (prop surveyData "id") arg)), w)
  | None =>
      match (match api with Some a => Builder.createSurvey a | None => None end) with
      | Some create =>
          match surveyJson with
          | VUndef | VNull => (Returned manualSaveRef [Callback saveNo false], w)
          | _ =>
              let (surveyName, w1) :=
                if truthy (prop surveyJson "title") then (prop surveyJson "title", w)
                else let (d1, w1) := Date_toLocaleDateString w in
                     (VStr ("Survey " ++ d1), w1) in
              let (d2, w2) := Date_toLocaleDateString w1 in
              let arg :=
                literal [("name", surveyName);
                         ("description", VStr ("Created on " ++ d2));
                         ("status", VStr "draft");
                         ("surveyJson", surveyJson)] in
              let call := Builder.CreateSurvey arg in
              (Awaiting [Call call] (mkFrame saveNo call (create arg)), w2)
          end
      | None =>
          let (manual, out) := saved p saveNo manualSaveRef in (Returned manual out, w)
      end
  end.

(** The rest of saveSurveyFunc, once the awaited call has settled. *)
Definition saveSurveyFunc_resume (p : Builder.Props) (frame : Frame)
    (r : string + value) (manualSaveRef : bool) : bool * list Output :=
  match r with
  | inl _ => (manualSaveRef, [Callback (f_saveNo frame) false])
  | inr _ => saved p (f_saveNo frame) manualSaveRef
  end.

End WithHost.

End Builder1.

(* ===================================================================== *)
(** ** Properties of property lists *)
(* ===================================================================== *)

Module ObjFacts.
Import JS.

Lemma get_set_eq (k : string) (v : value) (o : obj) : get (set k v o) k = v.
Proof.
  induction o as [|[k' v'] rest IH]; simpl.
  - now rewrite String.eqb_refl.
  - destruct (k' =? k) eqn:E; simpl.
    + now rewrite String.eqb_refl.
    + now rewrite E.
Qed.

Lemma get_set_ne (k k' : string) (v : value) (o : obj) :
  k <> k' -> get (set k v o) k' = get o k'.
Proof.
  intros Hne. induction o as [|[k0 v0] rest IH]; simpl.
  - apply String.eqb_neq in Hne. now rewrite Hne.
  - destruct (k0 =? k) eqn:E; simpl.
    + apply String.eqb_eq in E. subst k0.
      apply String.eqb_neq in Hne. now rewrite Hne.
    + destruct (k0 =? k'); [reflexivity | exact IH].
Qed.

Lemma has_set_eq (k : string) (v : value) (o : obj) : has (set k v o) k = true.
Proof.
  induction o as [|[k' v'] rest IH]; simpl.
  - now rewrite String.eqb_refl.
  - destruct (k' =? k) eqn:E; simpl.
    + now rewrite String.eqb_refl.
    + now rewrite E.
Qed.

Lemma has_set_ne (k k' : string) (v : value) (o : obj) :
  k <> k' -> has (set k v o) k' = has o k'.
Proof.
  intros Hne. induction o as [|[k0 v0] rest IH]; simpl.
  - apply String.eqb_neq in Hne. now rewrite Hne.
  - destruct (k0 =? k) eqn:E; simpl.
    + apply String.eqb_eq in E. subst k0. reflexivity.
    + now rewrite IH.
Qed.

Lemma has_false_get (o : obj) (k : string) : has o k = false -> get o k = VUndef.
Proof.
  induction o as [|[k' v'] rest IH]; simpl; [reflexivity|].
  destruct (k' =? k); simpl; [discriminate | exact IH].
Qed.

Lemma has_In (o : obj) (k : string) : has o k = true <-> In k (map fst o).
Proof.
  induction o as [|[k' v'] rest IH]; simpl.
  - split; [discriminate | tauto].
  - rewrite orb_true_iff, IH, String.eqb_eq. tauto.
Qed.

(** A spread leaves alone what the source does not mention. *)
Lemma get_assign_absent (src target : obj) (k : string) :
  has src k = false -> get (assign target src) k = get target k.
Proof.
  unfold assign. revert target.
  induction src as [|[k' v'] rest IH]; intros target Habs; simpl; [reflexivity|].
  simpl in Habs. apply orb_false_iff in Habs as [Hk Hrest].
  rewrite (IH _ Hrest). apply get_set_ne. now apply String.eqb_neq.
Qed.

(** A spread writes every property of a well-formed source. *)
Lemma get_assign_present (src target : obj) (k : string) :
  wf src -> has src k = true -> get (assign target src) k = get src k.
Proof.
  unfold assign, wf. revert target.
  induction src as [|[k' v'] rest IH]; intros target Hwf Hin; simpl in *; [discriminate|].
  inversion Hwf as [|? ? Hnotin Hwf']; subst.
  destruct (k' =? k) eqn:E.
  - apply String.eqb_eq in E. subst k'.
    assert (Habs : has rest k = false).
    { destruct (has rest k) eqn:Hh; [|reflexivity].
      apply has_In in Hh. contradiction. }
    change (get (assign (set k v' target) rest) k = v').
    rewrite (get_assign_absent _ _ _ Habs). apply get_set_eq.
  - simpl in Hin. apply (IH _ Hwf' Hin).
Qed.

Lemma has_assign (src target : obj) (k : string) :
  has (assign target src) k = has target k || has src k.
Proof.
  unfold assign. revert target.
  induction src as [|[k' v'] rest IH]; intros target; simpl.
  - now rewrite orb_false_r.
  - rewrite IH. destruct (k' =? k) eqn:E.
    + apply String.eqb_eq in E. subst k'. rewrite has_set_eq. simpl.
      now rewrite orb_true_r.
    + rewrite has_set_ne by (now apply String.eqb_neq). reflexivity.
Qed.

End ObjFacts.

(* ===================================================================== *)
(** ** Properties of the resource client *)
(* ===================================================================== *)

Module ClientFacts.
Import JS Platform Client ObjFacts.


Section WithHost.
Context `{Host}.

(** What updateModule does once the stored record is fetched. *)
Lemma updateModule_found (id : value) (patch : obj) (existing : value)
    (t : string) (w w1 w2 : World) :
  getModule id w = (inr existing, w1) ->
  Date_toISOString w1 = (t, w2) ->
  updateModule id patch w =
    catch
      (response <- fetch (mkRequest PUT (UModule (to_string id))
                            (Some (json_body (updatePayload existing patch t)))) ;;
       handleResponse response)
      (fun e => throw ("Failed to update module: " ++ e)) w2.
Proof.
  intros Hget Hnow. unfold updateModule. rewrite Hget.
  unfold catch, bind, toISOString. rewrite Hnow. reflexivity.
Qed.

(** What updateModule does when the identifier cannot be fetched. *)
Lemma updateModule_fallback (id : value) (patch : obj) (e : string) (w w1 : World) :
  getModule id w = (inl e, w1) ->
  updateModule id patch w = createModule (fallbackData id patch) w1.
Proof. intros Hget. unfold updateModule. now rewrite Hget. Qed.

Lemma getModule_404 (id : value) (response : Response) (w w1 : World) :
  fetch (mkRequest GET (UModule (to_string id)) None) w = (inr response, w1) ->
  status response = 404%Z ->
  getModule id w = (inl ("Module with ID " ++ to_string id ++ " not found"), w1).
Proof.
  intros Hfetch H404. unfold getModule, bind. rewrite Hfetch, H404. reflexivity.
Qed.

(** X5. An update of an identifier the backend answers 404 for is a create:
    the patch, with its name defaulting to Survey followed by the
    identifier, goes to createModule, and when the POST succeeds the
    record it returns is the result of the update, not an error. *)
Theorem update_falls_back_to_create (id : value) (patch : obj)
    (missing created_response : Response) (created : value)
    (t1 t2 : string) (w w1 w2 w3 w4 : World) :
  fetch (mkRequest GET (UModule (to_string id)) None) w = (inr missing, w1) ->
  status missing = 404%Z ->
  Date_toISOString w1 = (t1, w2) ->
  Date_toISOString w2 = (t2, w3) ->
  fetch (mkRequest POST UModules
           (Some (json_body (createPayload (fallbackData id patch) t1 t2)))) w3 =
    (inr created_response, w4) ->
  ok created_response = true ->
  json created_response = inr created ->
  updateModule id patch w = (inr created, w4) /\
  get (fallbackData id patch) "name" =
    (get patch "name" ||| VStr ("Survey " ++ to_string id)) /\
  (forall k, k <> "name" -> get (fallbackData id patch) k = get patch k).
Proof.
  intros Hget H404 Ht1 Ht2 Hpost Hok Hjson.
  split; [|split].
  - rewrite (updateModule_fallback id patch _ w w1 (getModule_404 id missing w w1 Hget H404)).
    unfold createModule, catch, bind, toISOString.
    rewrite Ht1, Ht2, Hpost. unfold handleResponse. rewrite Hok, Hjson. reflexivity.
  - unfold fallbackData. apply get_set_eq.
  - intros k Hk. unfold fallbackData. apply get_set_ne. congruence.
Qed.

End WithHost.

Lemma updatePayload_updatedAt (existing : value) (patch : obj) (t : string) :
  get (updatePayload existing patch t) "updatedAt" = VStr t.
Proof.
  unfold updatePayload.
  destruct (truthy (get patch "form_data") && negb (truthy (get patch "surveyJson")));
    destruct (truthy (get patch "surveyJson") && negb (truthy (get patch "form_data")));
    repeat (rewrite get_set_ne by discriminate); apply get_set_eq.
Qed.

Lemma updatePayload_other (existing : value) (patch : obj) (t : string) (k : string) :
  k <> "updatedAt" -> k <> "surveyJson" -> k <> "form_data" ->
  get (updatePayload existing patch t) k = get (assign (own existing) patch) k.
Proof.
  intros H1 H2 H3. unfold updatePayload.
  destruct (truthy (get patch "form_data") && negb (truthy (get patch "surveyJson")));
    destruct (truthy (get patch "surveyJson") && negb (truthy (get patch "form_data")));
    repeat (rewrite get_set_ne by congruence); reflexivity.
Qed.




(** C10 (as amended). When the backend holds a module under the id, the
    PUT request carries [updatePayload]: updatedAt is the current time;
    every field other than updatedAt, surveyJson and form_data that the
    patch does not mention is the stored one; surveyJson is the stored one
    too unless the patch brings a truthy form_data without it, in which
    case it is that document (and the same with the two names exchanged);
    and whenever the patch brings both of the two fields or neither, the
    payload is exactly the stored module overlaid with the patch and the
    fresh updatedAt. *)
Theorem update_payload_frame `{Host} (id : value) (patch : obj) (existing : value)
    (t : string) (w w1 w2 : World) :
  getModule id w = (inr existing, w1) ->
  Date_toISOString w1 = (t, w2) ->
  let payload := updatePayload existing patch t in
  updateModule id patch w =
    catch
      (response <- fetch (mkRequest PUT (UModule (to_string id))
                            (Some (json_body payload))) ;;
       handleResponse response)
      (fun e => throw ("Failed to update module: " ++ e)) w2 /\
  get payload "updatedAt" = VStr t /\
  (forall k, has patch k = false ->
             k <> "updatedAt" -> k <> "surveyJson" -> k <> "form_data" ->
             get payload k = get (own existing) k) /\
  (has patch "surveyJson" = false -> truthy (get patch "form_data") = false ->
   get payload "surveyJson" = get (own existing) "surveyJson") /\
  (has patch "form_data" = false -> truthy (get patch "surveyJson") = false ->
   get payload "form_data" = get (own existing) "form_data") /\
  (has patch "surveyJson" = false -> truthy (get patch "form_data") = true ->
   get payload "surveyJson" = get patch "form_data") /\
  (has patch "form_data" = false -> truthy (get patch "surveyJson") = true ->
   get payload "form_data" = get patch "surveyJson") /\
  (truthy (get patch "form_data") = truthy (get patch "surveyJson") ->
   payload = set "updatedAt" (VStr t) (assign (own existing) patch)).
Proof.
  intros Hget Hnow payload.
  split; [exact (updateModule_found id patch existing t w w1 w2 Hget Hnow)|].
  split; [apply updatePayload_updatedAt|].
  split.
  { intros k Habs H1 H2 H3. subst payload.
    rewrite updatePayload_other by assumption. now apply get_assign_absent. }
  subst payload. unfold updatePayload.
  repeat split.
  - intros Habs Hfd. rewrite (has_false_get _ _ Habs), Hfd. simpl.
    rewrite get_set_ne by discriminate. now apply get_assign_absent.
  - intros Habs Hsj. rewrite (has_false_get _ _ Habs), Hsj. simpl.
    destruct (truthy (get patch "form_data") && true);
      repeat (rewrite get_set_ne by discriminate); now apply get_assign_absent.
  - intros Habs Hfd. rewrite (has_false_get _ _ Habs), Hfd. simpl.
    apply get_set_eq.
  - intros Habs Hsj. rewrite (has_false_get _ _ Habs), Hsj. simpl.
    apply get_set_eq.
  - intros Heq. rewrite Heq.
    destruct (truthy (get patch "surveyJson")); reflexivity.
Qed.

(** C10, witness: module 7 is stored, the patch renames it; the
    description travels unchanged and updatedAt is the clock's reading. *)
Lemma update_payload_frame_witness :
  let stored := Scripted.storedModule 7 "Intake" (Scripted.survey "Old") in
  let w := Scripted.fresh [Scripted.respond 200 stored] in
  let payload := updatePayload stored [("name", VStr "Renamed")] "T0" in
  fst (getModule (H := Scripted.host) (VNum 7) w) = inr stored /\
  get payload "description" = VStr "Created on D0" /\
  get payload "updatedAt" = VStr "T0".
Proof.
  pose (stored := Scripted.storedModule 7 "Intake" (Scripted.survey "Old")).
  pose (w := Scripted.fresh [Scripted.respond 200 stored]).
  pose proof (update_payload_frame (H := Scripted.host) (VNum 7)
                [("name", VStr "Renamed")] stored "T0" w
                (snd (getModule (H := Scripted.host) (VNum 7) w))
                (snd (Date_toISOString
                        (snd (getModule (H := Scripted.host) (VNum 7) w))))
                eq_refl eq_refl) as (_ & Hat & Hframe & _).
  split; [reflexivity|]. split; [|exact Hat].
  apply (Hframe "description"); [reflexivity | discriminate | discriminate | discriminate].
Defined.

(** C10, as stated, fails: module 7 is stored with the survey Old; a
    patch that mentions only form_data makes updateModule send a PUT whose
    surveyJson is the patch's document, not the stored one. *)
Lemma alias_overwrites_unmentioned_field :
  let stored := Scripted.storedModule 7 "Intake" (Scripted.survey "Old") in
  let patch := [("form_data", Scripted.survey "New")] in
  let payload := updatePayload stored patch "T0" in
  let w := Scripted.fresh [Scripted.respond 200 stored; Scripted.respond 200 stored] in
  map (fun q => (req_method q, req_body q))
      (Scripted.sent (snd (updateModule (H := Scripted.host) (VNum 7) patch w))) =
    [(GET, None); (PUT, Some payload)] /\
  has patch "surveyJson" = false /\
  get (own stored) "surveyJson" = Scripted.survey "Old" /\
  get payload "surveyJson" = Scripted.survey "New" /\
  get payload "surveyJson" <> get (own stored) "surveyJson".
Proof.
  split; [reflexivity|]. split; [reflexivity|]. split; [reflexivity|].
  split; [reflexivity|]. vm_compute. discriminate.
Qed.

End ClientFacts.

(* ===================================================================== *)
(** ** Properties of the duplicate cleanup *)
(* ===================================================================== *)

Module ListFacts.
Import JS Platform ListView.

(** *** Filing the modules under their names *)









(** *** The order Object.entries visits the groups in *)



Section WithHost.
Context `{Host}.

(** *** Sorting a group *)

Lemma insert_perm (x : obj) (l : list obj) : Permutation (insert x l) (x :: l).
Proof.
  induction l as [|y rest IH]; simpl; [reflexivity|].
  destruct (behind x y); [|reflexivity].
  rewrite IH. apply perm_swap.
Qed.

Lemma sort_perm (l : list obj) : Permutation (sort l) l.
Proof.
  induction l as [|x rest IH]; simpl; [reflexivity|].
  rewrite insert_perm. now constructor.
Qed.

Lemma behind_time (a b : obj) :
  stamp a <> None -> stamp b <> None -> behind a b = (time a <? time b)%Z.
Proof.
  unfold behind, compareFn, time.
  destruct (stamp a) as [ta|]; [|congruence].
  destruct (stamp b) as [tb|]; [|congruence].
  intros _ _. destruct (Z.ltb_spec 0 (tb - ta)); destruct (Z.ltb_spec ta tb); lia.
Qed.




(** *** The sweep *)






(** C2, the code at a failing input. Two modules share the name
    constructor. The grouping object is an object literal, so the read of
    [moduleGroups[name]] finds the inherited Object.prototype.constructor,
    which is truthy: no array is stored, the call of push on it raises a
    TypeError, and the outer catch ends the cleanup with its failure
    message before any deletion is attempted (the world is untouched),
    whatever deleteModule would do. On the specification's example (names
    A, A and B, the second A the more recent) the cleanup does what is
    described: deleteModule is called for id 1 only, and the count is 1
    exactly when that deletion succeeds. *)
Theorem cleanup_aborts_on_inherited_name (deleteModule : value -> M value) (w : World) :
  let module (id : Z) (name : string) (updatedAt : Z) : obj :=
    [("name", VStr name); ("updatedAt", VNum updatedAt); ("id", VNum id)] in
  handleCleanupDuplicates deleteModule
    [module 1 "constructor" 1000; module 2 "constructor" 2000]%Z w = (Failed, w) /\
  handleCleanupDuplicates deleteModule
    [module 1 "A" 1000; module 2 "A" 2000; [("name", VStr "B"); ("id", VNum 3)]]%Z w =
    match deleteModule (VNum 1) w with
    | (inr _, w') => (Completed 1, w')
    | (inl _, w') => (Completed 0, w')
    end.
Proof.
  split; [reflexivity|].
  unfold handleCleanupDuplicates. simpl.
  destruct (deleteModule (VNum 1) w) as [[e|v] w']; reflexivity.
Qed.

End WithHost.

End ListFacts.
(* ===================================================================== *)
(** ** Properties of the save procedure *)
(* ===================================================================== *)

Module SaveFacts.
Import JS Platform Builder.

Section WithHost.
Context `{Host}.

(** Once the creator exists, the effect replaces nothing. *)
Lemma effect_idle (p : Props) (s : Session) (inst : Instance) :
  creator s = Some inst -> effect p s = s.
Proof. intros Hc. unfold effect. rewrite Hc. reflexivity. Qed.

Lemma setCurrentModuleId_fields (p : Props) (id : value) (s : Session) (inst : Instance) :
  creator s = Some inst ->
  setCurrentModuleId p id s =
    mkSession (creator s) (saveStatus s) id (manualSaveRef s) (isSavingRef s)
              (lastSavedContentRef s).
Proof.
  intros Hc. unfold setCurrentModuleId. apply effect_idle with (inst := inst).
  exact Hc.
Qed.

(** The effect never touches an existing creator, whatever it does. *)
Lemma effect_creator (p : Props) (s : Session) (inst : Instance) :
  creator s = Some inst -> creator (effect p s) = Some inst.
Proof. intros Hc. rewrite (effect_idle p s inst Hc). exact Hc. Qed.

Lemma saveSurveyFunc_begin_cases (inst : Instance) (doc : value) (saveNo : nat)
    (s : Session) (w : World) :
  begin_case inst doc saveNo s w (saveSurveyFunc_begin inst doc saveNo s w).
Proof.
  assert (Hawait : forall frame w' st,
             st = setSaveStatus "Saving..." (set_isSaving true s) ->
             isSavingRef s = false ->
             (JSON_stringify doc =? lastSavedContentRef s) && negb (manualSaveRef s) = false ->
             empty_document doc = false ->
             f_saveNo frame = saveNo ->
             f_currentContent frame = JSON_stringify doc ->
             (is_create (f_call frame) = false -> truthy (inst_currentModuleId inst) = true) ->
             (forall id surveyData, f_call frame = UpdateSurvey id surveyData ->
                                    id = inst_currentModuleId inst) ->
             forall c, c = f_call frame ->
             begin_case inst doc saveNo s w (Awaiting st [Call c] frame, w')).
  { intros frame w' st -> ? ? ? ? ? ? ? c ->. now apply begin_awaiting. }
  unfold saveSurveyFunc_begin.
  destruct (isSavingRef s) eqn:Hflight.
  { now apply begin_in_flight. }
  destruct ((JSON_stringify doc =? lastSavedContentRef s) && negb (manualSaveRef s)) eqn:Hsame.
  { now apply begin_unchanged. }
  destruct (empty_document doc) eqn:Hempty.
  { unfold save_failed. apply begin_rejected; auto. }
  destruct (truthy (inst_currentModuleId inst)) eqn:Hid.
  - destruct (p_apiService (inst_props inst)) as [api|].
    + destruct (updateSurvey api) as [update|].
      * apply Hawait; auto; simpl; congruence.
      * destruct (createSurvey api) as [create|].
        -- destruct (if truthy (prop doc "title") then _ else _) as [surveyName w1].
           destruct (Date_toLocaleDateString w1) as [d2 w2].
           apply Hawait; auto; simpl; congruence.
        -- unfold save_failed. apply begin_rejected; auto.
    + unfold save_failed. apply begin_rejected; auto.
  - destruct (p_apiService (inst_props inst)) as [api|].
    + destruct (createSurvey api) as [create|].
      * destruct (if truthy (prop doc "title") then _ else _) as [surveyName w1].
        destruct (Date_toLocaleDateString w1) as [d2 w2].
        apply Hawait; auto; simpl; congruence.
      * unfold save_failed. apply begin_rejected; auto.
    + unfold save_failed. apply begin_rejected; auto.
Qed.

(** *** The guard and the frames in flight *)

Lemma guarded_idle (m : Machine) :
  guarded m -> isSavingRef (session m) = false -> inflight m = [].
Proof.
  intros [_ Hiff] Hfree. destruct (inflight m) as [|frame rest]; [reflexivity|].
  assert (isSavingRef (session m) = true) by (apply Hiff; discriminate).
  congruence.
Qed.

Lemma call_guarded (inst : Instance) (doc : value) (saveNo : nat) (s : Session)
    (m : Machine) :
  guarded m -> isSavingRef s = isSavingRef (session m) ->
  guarded (fst (call_saveSurveyFunc inst doc saveNo s m)).
Proof.
  intros Hg Hs. unfold call_saveSurveyFunc.
  pose proof (saveSurveyFunc_begin_cases inst doc saveNo s (world m)) as Hc.
  destruct (saveSurveyFunc_begin inst doc saveNo s (world m)) as [[s' out|s' out frame] w'];
    inversion Hc; subst; unfold guarded in *; simpl.
  - rewrite Hs. exact Hg.
  - rewrite Hs. exact Hg.
  - assert (Hnil : inflight m = []) by (apply guarded_idle; [exact Hg | congruence]).
    rewrite Hnil. simpl. split; [lia|]. split; [discriminate | intros Hne; now contradiction Hne].
  - assert (Hnil : inflight m = []) by (apply guarded_idle; [exact Hg | congruence]).
    rewrite Hnil. simpl. split; [lia|]. split; [discriminate | reflexivity].
Qed.

Lemma resume_releases (inst : Instance) (frame : Frame) (r : string + value) (s : Session) :
  isSavingRef (fst (saveSurveyFunc_resume inst frame r s)) = false.
Proof. unfold saveSurveyFunc_resume, save_failed. destruct r; reflexivity. Qed.

Lemma step_guarded (m : Machine) (e : Event) :
  guarded m -> guarded (fst (step m e)).
Proof.
  intros Hg. unfold step.
  destruct (creator (session m)) as [inst|]; [|exact Hg].
  destruct e as [doc saveNo|doc saveNo|].
  - apply call_guarded; [exact Hg | reflexivity].
  - apply call_guarded; [exact Hg | reflexivity].
  - destruct (inflight m) as [|frame rest] eqn:Hin; [exact Hg|].
    destruct (f_promise frame (world m)) as [r w'].
    pose proof (resume_releases inst frame r (session m)) as Hrel.
    destruct (saveSurveyFunc_resume inst frame r (session m)) as [s' out].
    simpl in Hrel. destruct Hg as [Hlen _]. rewrite Hin in Hlen. simpl in Hlen.
    destruct rest as [|f2 rest]; [|simpl in Hlen; lia].
    unfold guarded; simpl. split; [lia|].
    split; [congruence | intros Hne; now contradiction Hne].
Qed.

Lemma run_guarded (events : list Event) (m : Machine) :
  guarded m -> guarded (fst (run m events)).
Proof.
  revert m. induction events as [|e rest IH]; intros m Hg; simpl; [exact Hg|].
  pose proof (step_guarded m e Hg) as Hs.
  destruct (step m e) as [m1 out1]. simpl in Hs.
  specialize (IH m1 Hs). destruct (run m1 rest) as [m2 out2]. exact IH.
Qed.

Lemma start_guarded (p : Props) (w : World) : guarded (start p w).
Proof.
  unfold guarded, start, mount, effect, first_render; simpl.
  split; [lia|]. split; [discriminate | intros Hne; now contradiction Hne].
Qed.

(** *** The creator instance is never replaced *)

Lemma resume_creator (inst i : Instance) (frame : Frame) (r : string + value) (s : Session) :
  creator s = Some i ->
  creator (fst (saveSurveyFunc_resume inst frame r s)) = Some i.
Proof.
  intros Hc. unfold saveSurveyFunc_resume, save_failed.
  destruct r as [message|result]; simpl; [exact Hc|].
  destruct (f_call frame); simpl; [|exact Hc].
  destruct (truthy result && truthy (prop result "id")); [|exact Hc].
  rewrite (setCurrentModuleId_fields _ _ _ i Hc). exact Hc.
Qed.

Lemma call_creator (inst : Instance) (doc : value) (saveNo : nat) (s : Session)
    (m : Machine) :
  creator (session (fst (call_saveSurveyFunc inst doc saveNo s m))) = creator s.
Proof.
  unfold call_saveSurveyFunc.
  pose proof (saveSurveyFunc_begin_cases inst doc saveNo s (world m)) as Hc.
  destruct (saveSurveyFunc_begin inst doc saveNo s (world m)) as [[s' out|s' out frame] w'];
    inversion Hc; subst; reflexivity.
Qed.

Lemma step_creator (m : Machine) (e : Event) :
  creator (session (fst (step m e))) = creator (session m).
Proof.
  unfold step. destruct (creator (session m)) as [inst|] eqn:Hc; [|exact Hc].
  destruct e as [doc saveNo|doc saveNo|].
  - rewrite call_creator. exact Hc.
  - rewrite call_creator. exact Hc.
  - destruct (inflight m) as [|frame rest]; [exact Hc|].
    destruct (f_promise frame (world m)) as [r w'].
    pose proof (resume_creator inst inst frame r (session m) Hc) as Hr.
    destruct (saveSurveyFunc_resume inst frame r (session m)) as [s' out].
    exact Hr.
Qed.

Lemma run_creator (events : list Event) (m : Machine) :
  creator (session (fst (run m events))) = creator (session m).
Proof.
  revert m. induction events as [|e rest IH]; intros m; simpl; [reflexivity|].
  pose proof (step_creator m e) as Hs.
  destruct (step m e) as [m1 out1]. simpl in Hs.
  specialize (IH m1). destruct (run m1 rest) as [m2 out2]. simpl in *. congruence.
Qed.

Lemma start_creator (p : Props) (w : World) :
  creator (session (start p w)) =
    Some (mkInstance p (currentModuleId (first_render p))).
Proof. reflexivity. Qed.

(** C3 (as amended). At most one persistence request is outstanding at
    any instant: in every state the builder can reach, at most one save is
    suspended at its await, and the saveInFlight flag (isSavingRef) is up
    exactly while one is. While the flag is up, in whatever state and
    world, a call of the save procedure returns at once: it starts no call
    on the service, leaves the state and the world as they are, and
    invokes the acknowledgment callback with success. So a save trigger
    that arrives meanwhile does no network work and is acknowledged with
    success: an autosave trigger leaves the whole machine (session, frames
    in flight, world) unchanged, and a manual trigger (Ctrl+S) changes
    nothing but the manual-save flag, which its handler sets before the
    procedure is called and which stays set. *)
Theorem one_save_in_flight (p : Props) (w : World) (events : list Event) :
  let m := fst (run (start p w) events) in
  (List.length (inflight m) <= 1)%nat /\
  (isSavingRef (session m) = true <-> inflight m <> []) /\
  (forall inst doc saveNo (s : Session) (w0 : World),
     isSavingRef s = true ->
     saveSurveyFunc_begin inst doc saveNo s w0 = (Returned s [Callback saveNo true], w0)) /\
  (isSavingRef (session m) = true ->
   (forall doc saveNo, step m (DoSave doc saveNo) = (m, [Callback saveNo true])) /\
   (forall doc saveNo,
      step m (KeyDown_CtrlS doc saveNo) =
        ({| session := set_manualSave true (session m);
            inflight := inflight m;
            world := world m |},
         [Callback saveNo true]))).
Proof.
  intros m.
  pose proof (run_guarded events (start p w) (start_guarded p w)) as [Hlen Hiff].
  fold m in Hlen, Hiff. split; [exact Hlen|]. split; [exact Hiff|].
  split.
  - intros inst doc saveNo s w0 Hup. unfold saveSurveyFunc_begin. now rewrite Hup.
  - intros Hup.
    pose proof (run_creator events (start p w)) as Hc. fold m in Hc.
    rewrite start_creator in Hc. split.
    + intros doc saveNo.
      unfold step. rewrite Hc. unfold call_saveSurveyFunc, saveSurveyFunc_begin.
      rewrite Hup. destruct m; reflexivity.
    + intros doc saveNo.
      unfold step. rewrite Hc. unfold call_saveSurveyFunc, saveSurveyFunc_begin.
      cbn [isSavingRef set_manualSave]. rewrite Hup. reflexivity.
Qed.

(** C5. A save on an empty document (the validation of the save
    procedure holds of it, as it does of the empty object) never reaches
    the network: in every state the procedure ends without awaiting a call
    and leaves the world untouched. When the attempt gets past the
    in-flight guard and the unchanged-content guard, it fails with the
    error Survey data is empty: the acknowledgment callback gets failure,
    the status shows the message, and the guard is free again. *)
Theorem empty_document_rejected (inst : Instance) (doc : value) (saveNo : nat)
    (s : Session) (w : World) :
  empty_document doc = true ->
  (exists s' out, saveSurveyFunc_begin inst doc saveNo s w = (Returned s' out, w) /\
                  calls out = []) /\
  (isSavingRef s = false ->
   (JSON_stringify doc =? lastSavedContentRef s) && negb (manualSaveRef s) = false ->
   exists s',
     saveSurveyFunc_begin inst doc saveNo s w =
       (Returned s' [SetTimeout_clearStatus 5000; Callback saveNo false], w) /\
     saveStatus s' = "Save failed: Survey data is empty" /\
     isSavingRef s' = false /\
     currentModuleId s' = currentModuleId s /\
     lastSavedContentRef s' = lastSavedContentRef s).
Proof.
  intros Hempty. split.
  - unfold saveSurveyFunc_begin.
    destruct (isSavingRef s); [now eexists; eexists|].
    destruct ((JSON_stringify doc =? lastSavedContentRef s) && negb (manualSaveRef s));
      [now eexists; eexists|].
    rewrite Hempty. unfold save_failed. now eexists; eexists.
  - intros Hfree Hchanged.
    unfold saveSurveyFunc_begin. rewrite Hfree, Hchanged, Hempty.
    unfold save_failed. eexists. split; [reflexivity|]. simpl. auto.
Qed.

(** C8. Every exit of a save attempt that found the guard free leaves it
    free, and a failed attempt shows Save failed with the error message
    and leaves the module identifier as it was. An attempt either ends
    before its await (nothing to save, validation failed, or no service is
    available) or is suspended, the identifier untouched, and ends,
    whatever the state [s2] it resumes in, when the call has settled with
    [r]. *)
Theorem failed_save_keeps_id_and_releases (inst : Instance) (doc : value)
    (saveNo : nat) (s : Session) (w : World) :
  isSavingRef s = false ->
  match saveSurveyFunc_begin inst doc saveNo s w with
  | (Returned s' out, _) =>
      isSavingRef s' = false /\
      (In (Callback saveNo false) out ->
       (exists message, saveStatus s' = "Save failed: " ++ message) /\
       currentModuleId s' = currentModuleId s)
  | (Awaiting s1 _ frame, _) =>
      currentModuleId s1 = currentModuleId s /\
      forall (s2 : Session) (r : string + value),
        let (s3, out) := saveSurveyFunc_resume inst frame r s2 in
        isSavingRef s3 = false /\
        (forall message, r = inl message ->
           saveStatus s3 = "Save failed: " ++ message /\
           currentModuleId s3 = currentModuleId s2 /\
           In (Callback saveNo false) out)
  end.
Proof.
  intros Hfree.
  pose proof (saveSurveyFunc_begin_cases inst doc saveNo s w) as Hc.
  destruct (saveSurveyFunc_begin inst doc saveNo s w) as [[s' out|s' out frame] w'];
    inversion Hc; subst; try congruence.
  - split; [exact Hfree|]. simpl. intros [Hin|[]]. discriminate.
  - split; [reflexivity|]. intros _. split; [eexists; reflexivity | reflexivity].
  - split; [reflexivity|]. intros s2 r.
    pose proof (resume_releases inst frame r s2) as Hrel.
    destruct (saveSurveyFunc_resume inst frame r s2) as [s3 out3] eqn:Hres.
    split; [exact Hrel|]. intros message ->.
    unfold saveSurveyFunc_resume, save_failed in Hres. inversion Hres; subst.
    simpl. auto.
Qed.

(** C9. When a suspended save resumes with the record [result] of a
    successful persistence, lastSavedContentRef becomes the content
    serialised when the save began and the manual-save flag is cleared. If
    the flag is set (and onSave is a function), the navigation callback
    onSave is scheduled with exactly that record; if the flag is not set,
    the outputs are the backup, the acknowledgment and the status timer,
    and no call of onSave. *)
Theorem manual_save_reports_result (inst : Instance) (doc : value) (saveNo : nat)
    (s s1 s2 : Session) (w w1 : World) (out1 : list Output) (frame : Frame)
    (result : value) :
  saveSurveyFunc_begin inst doc saveNo s w = (Awaiting s1 out1 frame, w1) ->
  p_onSave (inst_props inst) = true ->
  let (s3, out) := saveSurveyFunc_resume inst frame (inr result) s2 in
  lastSavedContentRef s3 = JSON_stringify doc /\
  manualSaveRef s3 = false /\
  (manualSaveRef s2 = true ->
   out = [LocalStorage_setItem; Callback saveNo true; SetTimeout_clearStatus 2000;
          SetTimeout_onSave 1000 result]) /\
  (manualSaveRef s2 = false ->
   out = [LocalStorage_setItem; Callback saveNo true; SetTimeout_clearStatus 2000]).
Proof.
  intros Hbegin HonSave.
  pose proof (saveSurveyFunc_begin_cases inst doc saveNo s w) as Hc.
  rewrite Hbegin in Hc. inversion Hc; subst.
  unfold saveSurveyFunc_resume.
  assert (Hm : forall st, manualSaveRef
            (match f_call frame with
             | UpdateSurvey _ _ => setSaveStatus "Updated successfully!" st
             | CreateSurvey _ =>
                 setSaveStatus "Created successfully!"
                   (if truthy result && truthy (prop result "id")
                    then setCurrentModuleId (inst_props inst) (prop result "id") st
                    else st)
             end) = manualSaveRef st).
  { intros st. destruct (f_call frame); simpl; [|reflexivity].
    destruct (truthy result && truthy (prop result "id")); [|reflexivity].
    unfold setCurrentModuleId, effect; simpl. destruct (creator st); reflexivity. }
  simpl. rewrite Hm, HonSave.
  match goal with H : f_currentContent frame = _ |- _ => rewrite H end.
  split; [reflexivity|]. split; [reflexivity|].
  split; intros ->; reflexivity.
Qed.

(** *** Counting calls against failures *)

Lemma calls_app (a b : list Output) : calls (a ++ b) = (calls a ++ calls b)%list.
Proof. unfold calls. apply flat_map_app. Qed.

Lemma budget_le_1 (doc : value) (m : Machine) : (budget doc m <= 1)%nat.
Proof.
  unfold budget. destruct (inflight m) as [|frame rest].
  - destruct ((JSON_stringify doc =? lastSavedContentRef (session m))
              && negb (manualSaveRef (session m))); lia.
  - destruct (f_currentContent frame =? JSON_stringify doc); lia.
Qed.

(** One event of an autosave run on [doc]: every call it issues is paid
    for by the budget, and the budget grows back only when a call fails. *)
Lemma step_budget (doc : value) (m : Machine) (e : Event) :
  guarded m -> autosave_of doc e ->
  (List.length (calls (snd (step m e))) + budget doc (fst (step m e))
   <= (if call_fails m e then 1 else 0) + budget doc m)%nat.
Proof.
  intros Hg He. unfold step, call_fails.
  destruct (creator (session m)) as [inst|];
    [|destruct e; simpl; lia].
  destruct He as [->|[saveNo ->]].
  - destruct (inflight m) as [|frame rest] eqn:Hin; [simpl; lia|].
    assert (rest = []) as ->.
    { destruct Hg as [Hlen _]. rewrite Hin in Hlen. simpl in Hlen.
      destruct rest; [reflexivity | simpl in Hlen; lia]. }
    destruct (f_promise frame (world m)) as [r w'].
    unfold saveSurveyFunc_resume, save_failed.
    destruct r as [message|result].
    + cbn [fst snd calls flat_map List.length app].
      pose proof (budget_le_1 doc
        {| session := set_isSaving false
                        (setSaveStatus ("Save failed: " ++ message) (session m));
           inflight := []; world := w' |}).
      lia.
    + set (s1 := match f_call frame with
                 | CreateSurvey _ => _
                 | UpdateSurvey _ _ => _
                 end).
      cbn [fst snd].
      destruct (manualSaveRef (set_lastSavedContent (f_currentContent frame) s1)
                && p_onSave (inst_props inst));
        cbn [calls flat_map List.length app];
        unfold budget; cbn [inflight session set_isSaving set_manualSave
                            set_lastSavedContent lastSavedContentRef manualSaveRef negb];
        rewrite Hin; rewrite andb_true_r;
        rewrite (String.eqb_sym (JSON_stringify doc) (f_currentContent frame)); lia.
  - unfold call_saveSurveyFunc.
    pose proof (saveSurveyFunc_begin_cases inst doc saveNo (session m) (world m)) as Hc.
    destruct (saveSurveyFunc_begin inst doc saveNo (session m) (world m))
      as [[s' out|s' out frame] w']; inversion Hc; subst.
    + cbn [fst snd calls flat_map List.length app].
      unfold budget; cbn [inflight session]. lia.
    + cbn [fst snd calls flat_map List.length app].
      unfold budget; cbn [inflight session]. lia.
    + (* rejected before the await: nothing is called, and the budget is
         what it was *)
      cbn [fst snd calls flat_map List.length app].
      unfold budget; cbn [inflight session set_isSaving setSaveStatus
                          lastSavedContentRef manualSaveRef]. lia.
    + assert (Hnil : inflight m = []) by (now apply guarded_idle).
      cbn [fst snd calls flat_map List.length app].
      unfold budget; cbn [inflight session]. rewrite Hnil.
      match goal with H : _ && _ = false |- _ => rewrite H end.
      cbn [app].
      match goal with H : f_currentContent frame = _ |- _ => rewrite H end.
      rewrite String.eqb_refl. simpl. lia.
Qed.

Lemma run_budget (doc : value) (events : list Event) (m : Machine) :
  guarded m -> Forall (autosave_of doc) events ->
  (List.length (calls (snd (run m events))) + budget doc (fst (run m events))
   <= failed_calls m events + budget doc m)%nat.
Proof.
  revert m. induction events as [|e rest IH]; intros m Hg Hall; simpl; [lia|].
  inversion Hall as [|? ? He Hrest]; subst.
  pose proof (step_budget doc m e Hg He) as Hstep.
  pose proof (step_guarded m e Hg) as Hg1.
  destruct (step m e) as [m1 out1]. cbn [fst snd] in *.
  specialize (IH m1 Hg1 Hrest).
  destruct (run m1 rest) as [m2 out2]. cbn [fst snd] in *.
  rewrite calls_app, length_app. lia.
Qed.

Lemma autosaves_Forall (doc : value) (script : list (option nat)) :
  Forall (autosave_of doc) (autosaves doc script).
Proof.
  induction script as [|[saveNo|] rest IH]; simpl; constructor; auto.
  - right. now exists saveNo.
  - now left.
Qed.

(** C4 (as amended). An autosave trigger whose serialised content equals
    lastSavedContentRef is a no-op success when no manual save is pending,
    that is, when manualSaveRef is down: the acknowledgment callback gets
    success and the machine (session, frames in flight, world) is
    unchanged. (The flag is raised by Ctrl+S and lowered only by a save
    that succeeds; while it is up the content check is skipped.) Over any
    run of autosave triggers on one document, from any state the builder
    can reach and with the outstanding call settling at any points in
    between, the number of create and update calls issued is at most one
    more than the number of calls that fail in the course of the run: a
    call that failed leaves lastSavedContentRef as it was, so the next
    trigger sends the document again, and once a call has succeeded no
    trigger sends anything. In particular at most one call is issued when
    none fails. *)
Theorem identical_autosaves_call_once_per_failure (p : Props) (w : World)
    (pre : list Event) (doc : value) (script : list (option nat)) :
  let m := fst (run (start p w) pre) in
  let out := snd (run m (autosaves doc script)) in
  let failures := failed_calls m (autosaves doc script) in
  ((JSON_stringify doc =? lastSavedContentRef (session m)) = true ->
   manualSaveRef (session m) = false ->
   forall saveNo, step m (DoSave doc saveNo) = (m, [Callback saveNo true])) /\
  (List.length (calls out) <= 1 + failures)%nat /\
  (failures = 0%nat -> (List.length (calls out) <= 1)%nat).
Proof.
  intros m out failures.
  assert (Hg : guarded m) by (apply run_guarded, start_guarded).
  assert (Hbound : (List.length (calls out) <= 1 + failures)%nat).
  { pose proof (run_budget doc (autosaves doc script) m Hg (autosaves_Forall doc script))
      as Hb.
    pose proof (budget_le_1 doc m). fold out failures in Hb. lia. }
  split; [|split; [exact Hbound | lia]].
  intros Hsame Hauto saveNo.
  pose proof (run_creator pre (start p w)) as Hc. fold m in Hc.
  rewrite start_creator in Hc.
  unfold step. rewrite Hc. unfold call_saveSurveyFunc, saveSurveyFunc_begin.
  rewrite Hsame, Hauto. simpl.
  destruct (isSavingRef (session m)); destruct m; reflexivity.
Qed.

(** *** Which identifier the saves use *)

Lemma resume_calls (inst : Instance) (frame : Frame) (r : string + value) (s : Session) :
  calls (snd (saveSurveyFunc_resume inst frame r s)) = [].
Proof.
  unfold saveSurveyFunc_resume, save_failed. destruct r as [message|result]; [reflexivity|].
  cbn [snd]. rewrite calls_app. simpl.
  match goal with |- context [if ?c then _ else _] => destruct c end; reflexivity.
Qed.

Lemma call_uses_id (inst : Instance) (doc : value) (saveNo : nat) (s : Session)
    (m : Machine) :
  Forall (uses_id (inst_currentModuleId inst))
         (calls (snd (call_saveSurveyFunc inst doc saveNo s m))).
Proof.
  unfold call_saveSurveyFunc.
  pose proof (saveSurveyFunc_begin_cases inst doc saveNo s (world m)) as Hc.
  destruct (saveSurveyFunc_begin inst doc saveNo s (world m)) as [[s' out|s' out frame] w'];
    inversion Hc; subst; simpl; try constructor; try constructor.
  unfold uses_id. destruct (f_call frame) as [surveyData|id surveyData] eqn:Hcall;
    [exact I|].
  split; [eauto | auto].
Qed.

Lemma step_uses_id (m : Machine) (e : Event) (inst : Instance) :
  creator (session m) = Some inst ->
  Forall (uses_id (inst_currentModuleId inst)) (calls (snd (step m e))).
Proof.
  intros Hc. unfold step. rewrite Hc.
  destruct e as [doc saveNo|doc saveNo|]; try apply call_uses_id.
  destruct (inflight m) as [|frame rest]; [constructor|].
  destruct (f_promise frame (world m)) as [r w'].
  pose proof (resume_calls inst frame r (session m)) as Hr.
  destruct (saveSurveyFunc_resume inst frame r (session m)) as [s' out].
  simpl in *. rewrite Hr. constructor.
Qed.

Lemma run_uses_id (events : list Event) (m : Machine) (inst : Instance) :
  creator (session m) = Some inst ->
  Forall (uses_id (inst_currentModuleId inst)) (calls (snd (run m events))).
Proof.
  revert m. induction events as [|e rest IH]; intros m Hc; simpl; [constructor|].
  pose proof (step_uses_id m e inst Hc) as Hs.
  pose proof (step_creator m e) as Hc1. rewrite Hc in Hc1.
  destruct (step m e) as [m1 out1]. simpl in Hs, Hc1.
  specialize (IH m1 Hc1). destruct (run m1 rest) as [m2 out2]. simpl in *.
  rewrite calls_app. apply Forall_app. split; assumption.
Qed.

(** X1. The identifier a save is made under is the one the builder was
    mounted with, whatever has happened since: saveSurveyFunc is installed
    once, by the first run of the effect, and reads the [currentModuleId]
    of that render. A builder mounted without an identifier therefore
    creates on every save, also after a create has succeeded and
    setCurrentModuleId has stored the new identifier in the state. *)
Theorem saves_use_the_mounted_id (p : Props) (w : World) (events : list Event) :
  let id0 := currentModuleId (first_render p) in
  let r := run (start p w) events in
  creator (session (fst r)) = Some (mkInstance p id0) /\
  Forall (uses_id id0) (calls (snd r)) /\
  (truthy id0 = false -> Forall (fun c => is_create c = true) (calls (snd r))).
Proof.
  intros id0 r.
  assert (Hc : creator (session (fst r)) = Some (mkInstance p id0)).
  { unfold r. rewrite run_creator. apply start_creator. }
  assert (Hu : Forall (uses_id id0) (calls (snd r))).
  { apply (run_uses_id events (start p w) (mkInstance p id0)). apply start_creator. }
  split; [exact Hc|]. split; [exact Hu|].
  intros Hfalsy. eapply Forall_impl; [|exact Hu].
  intros c Hc'. destruct c as [surveyData|id surveyData]; [reflexivity|].
  destruct Hc' as [_ Htruthy]. congruence.
Qed.

(** X2. The update branch of a save never stores an identifier: whatever
    record the update returns (the record of a fallback create included),
    the state keeps the identifier it had. *)
Theorem update_branch_keeps_id (inst : Instance) (frame : Frame) (r : string + value)
    (s : Session) (id : value) (surveyData : obj) :
  f_call frame = UpdateSurvey id surveyData ->
  currentModuleId (fst (saveSurveyFunc_resume inst frame r s)) = currentModuleId s.
Proof.
  intros Hcall. unfold saveSurveyFunc_resume, save_failed.
  destruct r as [message|result]; [reflexivity|]. rewrite Hcall. reflexivity.
Qed.

(** X3. The create branch stores the identifier of the record it got, when
    the record has a truthy one. *)
Theorem create_branch_stores_id (inst i : Instance) (frame : Frame) (result : value)
    (s : Session) (surveyData : obj) :
  creator s = Some i ->
  f_call frame = CreateSurvey surveyData ->
  truthy result && truthy (prop result "id") = true ->
  currentModuleId (fst (saveSurveyFunc_resume inst frame (inr result) s)) = prop result "id".
Proof.
  intros Hc Hcall Hid. unfold saveSurveyFunc_resume. rewrite Hcall, Hid.
  rewrite (setCurrentModuleId_fields _ _ _ i Hc). reflexivity.
Qed.

End WithHost.

End SaveFacts.

(* ===================================================================== *)
(** ** Closed runs on the scripted host *)
(* ===================================================================== *)

Module Scenarios.
Import JS Platform Builder Scripted.

(** The instance the effect builds when the builder is mounted on
    [newSurvey]: saveSurveyFunc closes over a null identifier. *)
Lemma newSurvey_instance :
  creator (mount newSurvey) = Some (mkInstance newSurvey VNull).
Proof. reflexivity. Qed.

(** C3, witness: a save of document A is suspended on the network; a
    trigger for document B arrives meanwhile, as an autosave and as a
    Ctrl+S. *)
Lemma one_save_in_flight_witness :
  let m := fst (run (start newSurvey (fresh [])) [DoSave (survey "A") 1]) in
  isSavingRef (session m) = true /\
  List.length (inflight m) = 1%nat /\
  step m (DoSave (survey "B") 2) = (m, [Callback 2 true]) /\
  step m (KeyDown_CtrlS (survey "B") 2) =
    ({| session := set_manualSave true (session m);
        inflight := inflight m;
        world := world m |},
     [Callback 2 true]).
Proof.
  pose proof (SaveFacts.one_save_in_flight newSurvey (fresh []) [DoSave (survey "A") 1])
    as Hthm.
  cbv zeta in Hthm. destruct Hthm as (_ & _ & _ & Hskip).
  split; [reflexivity|]. split; [reflexivity|].
  destruct (Hskip eq_refl) as [Hauto Hmanual].
  split; [apply Hauto | apply Hmanual].
Defined.

(** C3, as stated, fails for the manual trigger: the create of document A
    is in flight when Ctrl+S is pressed on document B. The key press is
    acknowledged with success and sends nothing, but it is not without a
    state mutation: manualSaveRef goes from false to true and stays so.
    When the create of A then succeeds it is taken for the manual save:
    onSave is armed with the record of A, and B was never sent. *)
Lemma ctrl_s_in_flight_sets_the_flag :
  let w := fresh [respond 201 (storedModule 1 "A" (survey "A"))] in
  let m := fst (run (start newSurvey w) [DoSave (survey "A") 1]) in
  let pressed := fst (step m (KeyDown_CtrlS (survey "B") 2)) in
  let r := run (start newSurvey w)
               [DoSave (survey "A") 1; KeyDown_CtrlS (survey "B") 2; Settle] in
  isSavingRef (session m) = true /\
  manualSaveRef (session m) = false /\
  snd (step m (KeyDown_CtrlS (survey "B") 2)) = [Callback 2 true] /\
  manualSaveRef (session pressed) = true /\
  pressed <> m /\
  sent (world pressed) = sent (world m) /\
  In (SetTimeout_onSave 1000 (storedModule 1 "A" (survey "A"))) (snd r) /\
  map is_create (calls (snd r)) = [true] /\
  map req_method (sent (world (fst r))) = [POST] /\
  lastSavedContentRef (session (fst r)) = JSON_stringify (survey "A").
Proof.
  intros w m pressed r.
  split; [reflexivity|]. split; [reflexivity|]. split; [reflexivity|].
  split; [reflexivity|]. split.
  { intros Heq.
    assert (Hflag : manualSaveRef (session pressed) = manualSaveRef (session m))
      by now rewrite Heq.
    vm_compute in Hflag. discriminate Hflag. }
  split; [reflexivity|]. split; [vm_compute; tauto|].
  split; [reflexivity|]. split; reflexivity.
Qed.

(** C5, witness: the first save of a new builder, on the empty object. *)
Lemma empty_document_rejected_witness :
  empty_document (VObj []) = true /\
  exists s',
    saveSurveyFunc_begin (mkInstance newSurvey VNull) (VObj []) 1 (mount newSurvey) (fresh []) =
      (Returned s' [SetTimeout_clearStatus 5000; Callback 1 false], fresh []) /\
    saveStatus s' = "Save failed: Survey data is empty" /\
    isSavingRef s' = false /\
    currentModuleId s' = currentModuleId (mount newSurvey) /\
    lastSavedContentRef s' = lastSavedContentRef (mount newSurvey).
Proof.
  split; [reflexivity|].
  apply (SaveFacts.empty_document_rejected (mkInstance newSurvey VNull) (VObj []) 1
           (mount newSurvey) (fresh [])); reflexivity.
Defined.

(** C4, witness: three autosave triggers on one document around a create
    that succeeds; the third finds the content persisted. *)
Lemma identical_autosaves_witness :
  let w := fresh [respond 201 (storedModule 1 "A" (survey "A"))] in
  let m := fst (run (start newSurvey w) (autosaves (survey "A") [Some 1; None])) in
  let script := [Some 1; None; Some 2; Some 3; None] in
  let out := snd (run (start newSurvey w) (autosaves (survey "A") script)) in
  step m (DoSave (survey "A") 2) = (m, [Callback 2 true]) /\
  failed_calls (start newSurvey w) (autosaves (survey "A") script) = 0%nat /\
  (List.length (calls out) <= 1)%nat.
Proof.
  intros w m script out. split; [|split; [reflexivity|]].
  - apply (proj1 (SaveFacts.identical_autosaves_call_once_per_failure newSurvey w
                    (autosaves (survey "A") [Some 1; None]) (survey "A") []));
      reflexivity.
  - apply (proj2 (proj2 (SaveFacts.identical_autosaves_call_once_per_failure newSurvey w
                           [] (survey "A") script))).
    reflexivity.
Defined.

(** C4, as stated, fails: the backend is unreachable, the first create
    fails, and the second trigger on the same document sends it again. *)
Lemma failed_autosave_is_sent_again :
  let r := run (start newSurvey (fresh []))
               (autosaves (survey "A") [Some 1; None; Some 2; None]) in
  List.length (calls (snd r)) = 2%nat /\
  map req_method (sent (world (fst r))) = [POST; POST] /\
  nacks (snd r) = 2%nat.
Proof.
  split; [|split]; reflexivity.
Qed.

(** C4, why the short-circuit needs the flag down. The builder is opened
    on module 7 and Ctrl+S is pressed on the unchanged document while the
    backend is unreachable: the save fails and manualSaveRef stays up. The
    next autosave trigger, its content still equal to lastSavedContentRef,
    is not short-circuited: it issues a call. An empty document, on the
    other hand, is refused with a failed acknowledgment and no call at
    all. *)
Lemma pending_manual_save_is_sent :
  let m := fst (run (start editSurvey (fresh []))
                    [KeyDown_CtrlS (survey "Intake") 1; Settle]) in
  let refused := run (start newSurvey (fresh []))
                     (autosaves (VObj []) [Some 1; Some 2; Some 3]) in
  (JSON_stringify (survey "Intake") =? lastSavedContentRef (session m)) = true /\
  manualSaveRef (session m) = true /\
  isSavingRef (session m) = false /\
  calls (snd (step m (DoSave (survey "Intake") 2))) =
    [UpdateSurvey (VNum 7) [("surveyJson", survey "Intake")]] /\
  nacks (snd refused) = 3%nat /\
  calls (snd refused) = [] /\
  failed_calls (start newSurvey (fresh [])) (autosaves (VObj []) [Some 1; Some 2; Some 3])
    = 0%nat.
Proof.
  repeat split; reflexivity.
Qed.

(** C8, witness: the first save of a new builder with the backend
    unreachable. *)
Lemma failed_save_witness :
  let inst := mkInstance newSurvey VNull in
  let r := run (start newSurvey (fresh [])) [DoSave (survey "A") 1; Settle] in
  isSavingRef (mount newSurvey) = false /\
  match saveSurveyFunc_begin inst (survey "A") 1 (mount newSurvey) (fresh []) with
  | (Returned s' out, _) =>
      isSavingRef s' = false /\
      (In (Callback 1 false) out ->
       (exists message, saveStatus s' = "Save failed: " ++ message) /\
       currentModuleId s' = currentModuleId (mount newSurvey))
  | (Awaiting s1 _ frame, _) =>
      currentModuleId s1 = currentModuleId (mount newSurvey) /\
      forall (s2 : Session) (r : string + value),
        let (s3, out) := saveSurveyFunc_resume inst frame r s2 in
        isSavingRef s3 = false /\
        (forall message, r = inl message ->
           saveStatus s3 = "Save failed: " ++ message /\
           currentModuleId s3 = currentModuleId s2 /\
           In (Callback 1 false) out)
  end /\
  saveStatus (session (fst r)) = "Save failed: Failed to create module: Failed to fetch" /\
  currentModuleId (session (fst r)) = VNull /\
  isSavingRef (session (fst r)) = false.
Proof.
  split; [reflexivity|]. split; [|repeat split].
  apply (SaveFacts.failed_save_keeps_id_and_releases (mkInstance newSurvey VNull)
           (survey "A") 1 (mount newSurvey) (fresh [])).
  reflexivity.
Defined.

(** C9, witness: Ctrl+S on a new builder; the create returns module 1. *)
Lemma manual_save_witness :
  let inst := mkInstance newSurvey VNull in
  let s := set_manualSave true (mount newSurvey) in
  let result := storedModule 1 "A" (survey "A") in
  match saveSurveyFunc_begin inst (survey "A") 1 s (fresh []) with
  | (Awaiting s1 out1 frame, w1) =>
      let (s3, out) := saveSurveyFunc_resume inst frame (inr result) s1 in
      lastSavedContentRef s3 = JSON_stringify (survey "A") /\
      manualSaveRef s3 = false /\
      (manualSaveRef s1 = true ->
       out = [LocalStorage_setItem; Callback 1 true; SetTimeout_clearStatus 2000;
              SetTimeout_onSave 1000 result]) /\
      (manualSaveRef s1 = false ->
       out = [LocalStorage_setItem; Callback 1 true; SetTimeout_clearStatus 2000])
  | _ => False
  end.
Proof.
  cbv zeta.
  destruct (saveSurveyFunc_begin (mkInstance newSurvey VNull) (survey "A") 1
              (set_manualSave true (mount newSurvey)) (fresh []))
    as [[s' out|s1 out1 frame] w1] eqn:Hbegin.
  - vm_compute in Hbegin. discriminate Hbegin.
  - apply (SaveFacts.manual_save_reports_result (mkInstance newSurvey VNull) (survey "A") 1
             (set_manualSave true (mount newSurvey)) s1 s1 (fresh []) w1 out1 frame
             (storedModule 1 "A" (survey "A")) Hbegin).
    reflexivity.
Defined.

(** C1, the code at a failing input. A builder opened from Create New
    Survey saves document A, the create succeeds and returns module 1, and
    the state holds identifier 1. The next autosave, on document B, is a
    create again (a second POST), not an update of module 1: the backend
    now holds two modules, and the state moves on to identifier 2. *)
Theorem second_save_creates_again :
  let w := fresh [respond 201 (storedModule 1 "A" (survey "A"));
                  respond 201 (storedModule 2 "B" (survey "B"))] in
  let first := run (start newSurvey w) [DoSave (survey "A") 1; Settle] in
  let both := run (start newSurvey w)
                  [DoSave (survey "A") 1; Settle; DoSave (survey "B") 2; Settle] in
  currentModuleId (session (fst first)) = VNum 1 /\
  map is_create (calls (snd both)) = [true; true] /\
  map (fun q => (req_method q, req_url q)) (sent (world (fst both))) =
    [(POST, UModules); (POST, UModules)] /\
  currentModuleId (session (fst both)) = VNum 2.
Proof.
  split; [reflexivity|]. split; [reflexivity|]. split; reflexivity.
Qed.

(** C6, the code at a failing input. A builder opened from Edit on module
    7, which the backend has since deleted. Ctrl+S on document B: the
    update finds no module 7, creates instead, and the record of the new
    module 8 is what onSave receives. The session still holds 7: the next
    autosave asks for an update of 7 again and ends in another create. *)
Theorem fallback_id_is_not_adopted :
  let w := fresh [respond_text 404 "{}"; respond 201 (storedModule 8 "Survey 7" (survey "B"));
                  respond_text 404 "{}"; respond 201 (storedModule 9 "Survey 7" (survey "C"))] in
  let r := run (start editSurvey w)
               [KeyDown_CtrlS (survey "B") 1; Settle; DoSave (survey "C") 2; Settle] in
  calls (snd r) =
    [UpdateSurvey (VNum 7) [("surveyJson", survey "B")];
     UpdateSurvey (VNum 7) [("surveyJson", survey "C")]] /\
  map (fun q => (req_method q, req_url q)) (sent (world (fst r))) =
    [(GET, UModule "7"); (POST, UModules); (GET, UModule "7"); (POST, UModules)] /\
  In (SetTimeout_onSave 1000 (storedModule 8 "Survey 7" (survey "B"))) (snd r) /\
  nacks (snd r) = 0%nat /\
  currentModuleId (session (fst r)) = VNum 7.
Proof.
  split; [reflexivity|]. split; [reflexivity|]. split; [|split; reflexivity].
  vm_compute. tauto.
Qed.

(** X2, witness: the settled update of the run above. *)
Lemma update_branch_keeps_id_witness :
  let frame := mkFrame 1 (JSON_stringify (survey "B"))
                 (UpdateSurvey (VNum 7) [("surveyJson", survey "B")])
                 (Client.updateSurvey (VNum 7) [("surveyJson", survey "B")]) in
  currentModuleId
    (fst (saveSurveyFunc_resume (mkInstance editSurvey (VNum 7)) frame
            (inr (storedModule 8 "Survey 7" (survey "B"))) (mount editSurvey))) = VNum 7.
Proof.
  exact (SaveFacts.update_branch_keeps_id (mkInstance editSurvey (VNum 7))
           (mkFrame 1 (JSON_stringify (survey "B"))
              (UpdateSurvey (VNum 7) [("surveyJson", survey "B")])
              (Client.updateSurvey (VNum 7) [("surveyJson", survey "B")]))
           (inr (storedModule 8 "Survey 7" (survey "B"))) (mount editSurvey)
           (VNum 7) [("surveyJson", survey "B")] eq_refl).
Defined.

(** X3, witness: the first create of a new builder. *)
Lemma create_branch_stores_id_witness :
  let frame := mkFrame 1 (JSON_stringify (survey "A"))
                 (CreateSurvey [("surveyJson", survey "A")])
                 (Client.createSurvey [("surveyJson", survey "A")]) in
  currentModuleId
    (fst (saveSurveyFunc_resume (mkInstance newSurvey VNull) frame
            (inr (storedModule 1 "A" (survey "A"))) (mount newSurvey))) = VNum 1.
Proof.
  exact (SaveFacts.create_branch_stores_id (mkInstance newSurvey VNull)
           (mkInstance newSurvey VNull)
           (mkFrame 1 (JSON_stringify (survey "A"))
              (CreateSurvey [("surveyJson", survey "A")])
              (Client.createSurvey [("surveyJson", survey "A")]))
           (storedModule 1 "A" (survey "A")) (mount newSurvey)
           [("surveyJson", survey "A")] eq_refl eq_refl eq_refl).
Defined.

(** X5, witness: module 7 is gone, the create answers with module 8. *)
Lemma update_falls_back_to_create_witness :
  let patch := Client.updateData [("surveyJson", survey "B")] in
  let w := fresh [respond_text 404 "{}"; respond 201 (storedModule 8 "Survey 7" (survey "B"))] in
  fst (Client.updateModule (VNum 7) patch w) = inr (storedModule 8 "Survey 7" (survey "B")) /\
  get (Client.fallbackData (VNum 7) patch) "name" = VStr "Survey 7".
Proof.
  intros patch w.
  pose (w1 := snd (fetch (mkRequest GET (UModule "7") None) w)).
  pose (w2 := snd (Date_toISOString w1)).
  pose (w3 := snd (Date_toISOString w2)).
  pose (post := mkRequest POST UModules
                  (Some (json_body (Client.createPayload
                                      (Client.fallbackData (VNum 7) patch) "T0" "T1")))).
  destruct (ClientFacts.update_falls_back_to_create (H := host) (VNum 7) patch
              (mkResponse 404 (Some "{}") (inl "Unexpected token in JSON"))
              (mkResponse 201 (Some (render (storedModule 8 "Survey 7" (survey "B"))))
                          (inr (storedModule 8 "Survey 7" (survey "B"))))
              (storedModule 8 "Survey 7" (survey "B")) "T0" "T1" w w1 w2 w3 (snd (fetch post w3))
              eq_refl eq_refl eq_refl eq_refl eq_refl eq_refl eq_refl)
    as (Hupdate & Hname & _).
  split; [now rewrite Hupdate | exact Hname].
Defined.


End Scenarios.

(* ===================================================================== *)
(** ** Properties of listing and diagnostics *)
(* ===================================================================== *)

Module HealthFacts.
Import JS Platform Client ClientHealth.

Section WithHost.
Context `{Host}.
Variable fetch_probe : M Response.

Lemma length_of_defined (v : value) (w : World) :
  v <> VNull -> v <> VUndef -> exists n, length_of v w = (inr n, w).
Proof.
  intros Hnull Hundef. destruct v; try congruence; eexists; reflexivity.
Qed.

Lemma length_of_world (v : value) (w : World) : snd (length_of v w) = w.
Proof. destruct v; reflexivity. Qed.

(** X6. An unhealthy probe, one that is rejected or answered outside 2xx,
    ends getModules with the advice to start json-server, and the list is
    never requested: the world is the one the probe left. *)
Theorem unhealthy_probe_stops_getModules (w : World) :
  (forall probe, fst (fetch_probe w) = inr probe -> ok probe = false) ->
  getModules fetch_probe w =
    (inl ("Failed to fetch modules: " ++ not_running), snd (fetch_probe w)).
Proof.
  intros Hbad. unfold getModules, catch, bind, checkServerHealth.
  destruct (fetch_probe w) as [[e|probe] w1]; simpl in *; [reflexivity|].
  rewrite (Hbad probe eq_refl). reflexivity.
Qed.

(** X7. getModules returns exactly when the probe and the list request are
    both answered with a 2xx status and the body of the list parses to
    something other than null; what it returns is that body, whatever it is.
    Every error it raises starts with Failed to fetch modules. *)
Theorem getModules_returns_the_parsed_body (w : World) :
  (forall result w',
     getModules fetch_probe w = (inr result, w') <->
     exists probe w1 response,
       fetch_probe w = (inr probe, w1) /\ ok probe = true /\
       fetch (mkRequest GET UModules None) w1 = (inr response, w') /\
       ok response = true /\ json response = inr result /\
       result <> VNull /\ result <> VUndef) /\
  (forall e w', getModules fetch_probe w = (inl e, w') ->
                exists reason, e = "Failed to fetch modules: " ++ reason).
Proof.
  split.
  - intros result w'. unfold getModules, catch, bind, checkServerHealth, handleResponse.
    split.
    + destruct (fetch_probe w) as [[e|probe] w1] eqn:Hp; [discriminate|].
      destruct (ok probe) eqn:Hprobe; simpl; [|discriminate].
      destruct (fetch (mkRequest GET UModules None) w1) as [[e|response] w2] eqn:Hf;
        [discriminate|].
      destruct (ok response) eqn:Hok; simpl; [|discriminate].
      destruct (json response) as [e|body] eqn:Hjson; simpl; [discriminate|].
      destruct body; simpl; try discriminate; intros Heq;
        inversion Heq; subst; exists probe, w1, response; repeat split; auto;
        discriminate.
    + intros (probe & w1 & response & Hp & Hprobe & Hf & Hok & Hjson & Hnull & Hundef).
      rewrite Hp, Hprobe. simpl. rewrite Hf, Hok. simpl. rewrite Hjson. simpl.
      destruct (length_of_defined result w' Hnull Hundef) as [n ->]. reflexivity.
  - intros e w'. unfold getModules, catch.
    match goal with |- context [match ?m w with _ => _ end] => destruct (m w) as [[e0|v] w0] end.
    + intros [= <- <-]. now exists e0.
    + discriminate.
Qed.

(** X8. debugInfo never rejects. Its report always carries the base URL and
    a timestamp; it says the server is healthy only when the first probe was
    answered with a 2xx status and getModules then returned, and it then
    counts what getModules returned; a report with an error says the server
    is not healthy. *)
Theorem debugInfo_always_reports (w : World) :
  exists info w',
    debugInfo fetch_probe w = (inr (VObj info), w') /\
    get info "apiBaseUrl" = VStr API_BASE_URL /\
    (exists t, get info "timestamp" = VStr t) /\
    (get info "serverHealthy" = VBool true \/ get info "serverHealthy" = VBool false) /\
    (get info "serverHealthy" = VBool true ->
     has info "error" = false /\
     exists probe w1 modules w2,
       fetch_probe w = (inr probe, w1) /\ ok probe = true /\
       getModules fetch_probe w1 = (inr modules, w2) /\
       length_of modules w2 = (inr (get info "moduleCount"), w2)) /\
    (has info "error" = true -> get info "serverHealthy" = VBool false).
Proof.
  unfold debugInfo, catch, bind, toISOString.
  unfold checkServerHealth at 1.
  destruct (fetch_probe w) as [[e|probe] w1] eqn:Hp.
  - (* the probe is rejected *)
    simpl. destruct (Date_toISOString w1) as [t w2].
    eexists; eexists. split; [reflexivity|].
    split; [reflexivity|]. split; [now exists t|]. split; [now right|].
    split; [discriminate | discriminate].
  - destruct (ok probe) eqn:Hprobe.
    + destruct (getModules fetch_probe w1) as [[e|modules] w2] eqn:Hget.
      * destruct (Date_toISOString w2) as [t w3].
        eexists; eexists. split; [reflexivity|].
        split; [reflexivity|]. split; [now exists t|]. split; [now right|].
        split; [discriminate | reflexivity].
      * destruct (length_of modules w2) as [[e|n] w3] eqn:Hlen.
        -- destruct (Date_toISOString w3) as [t w4].
           eexists; eexists. split; [reflexivity|].
           split; [reflexivity|]. split; [now exists t|]. split; [now right|].
           split; [discriminate | reflexivity].
        -- assert (w3 = w2) as ->.
           { pose proof (length_of_world modules w2) as Hw. now rewrite Hlen in Hw. }
           destruct (Date_toISOString w2) as [t w4].
           eexists; eexists. split; [reflexivity|].
           split; [reflexivity|]. split; [now exists t|]. split; [now left|].
           split; [|discriminate].
           intros _. split; [reflexivity|].
           exists probe, w1, modules, w2. auto.
    + simpl. destruct (Date_toISOString w1) as [t w2].
      eexists; eexists. split; [reflexivity|].
      split; [reflexivity|]. split; [now exists t|]. split; [now right|].
      split; [discriminate | discriminate].
Qed.

End WithHost.

End HealthFacts.

(* ===================================================================== *)
(** ** Errors and requests of the resource client *)
(* ===================================================================== *)

Module ClientErrors.
Import JS Platform Client ObjFacts.

Section WithHost.
Context `{Host}.



Lemma createModule_error (moduleData : obj) (w w' : World) (e : string) :
  createModule moduleData w = (inl e, w') ->
  exists reason, e = "Failed to create module: " ++ reason.
Proof.
  unfold createModule, catch.
  match goal with |- context [match ?m w with _ => _ end] => destruct (m w) as [[e0|v] w0] end.
  - intros [= <- <-]. now exists e0.
  - discriminate.
Qed.

Lemma getModule_failed (id : value) (answer : string + Response) (w w1 : World) :
  fetch (mkRequest GET (UModule (to_string id)) None) w = (answer, w1) ->
  (forall response, answer = inr response ->
                    ok response = false \/ exists e, json response = inl e) ->
  exists e, getModule id w = (inl e, w1).
Proof.
  intros Hfetch Hbad. unfold getModule, bind. rewrite Hfetch.
  destruct answer as [e|response]; [now exists e|].
  destruct (status response =? 404)%Z; [eexists; reflexivity|].
  unfold handleResponse.
  destruct (Hbad response eq_refl) as [Hok|[e Hjson]].
  - rewrite Hok. eexists; reflexivity.
  - destruct (ok response); simpl; [|eexists; reflexivity].
    rewrite Hjson. now exists e.
Qed.

(** X9. Whatever makes the lookup of updateModule fail, the update becomes a
    create: a rejected fetch, any status outside 2xx (404 among them) and a
    body that does not parse all lead to createModule on the patch, in the
    world the lookup left. *)
Theorem failed_lookup_turns_update_into_create (id : value) (patch : obj)
    (answer : string + Response) (w w1 : World) :
  fetch (mkRequest GET (UModule (to_string id)) None) w = (answer, w1) ->
  (forall response, answer = inr response ->
                    ok response = false \/ exists e, json response = inl e) ->
  updateModule id patch w = createModule (fallbackData id patch) w1.
Proof.
  intros Hfetch Hbad.
  destruct (getModule_failed id answer w w1 Hfetch Hbad) as [e Hget].
  unfold updateModule. now rewrite Hget.
Qed.

(** X10. An error of updateModule names the request that failed: the update
    when the stored record was fetched, the create when it was not (the
    error of the fallback is not wrapped a second time). *)
Theorem updateModule_error_names_the_request (id : value) (patch : obj)
    (w w' : World) (e : string) :
  updateModule id patch w = (inl e, w') ->
  match fst (getModule id w) with
  | inr _ => exists reason, e = "Failed to update module: " ++ reason
  | inl _ => exists reason, e = "Failed to create module: " ++ reason
  end.
Proof.
  unfold updateModule.
  destruct (getModule id w) as [[e0|existing] w1]; simpl.
  - apply createModule_error.
  - unfold catch.
    match goal with |- context [match ?m w1 with _ => _ end] =>
      destruct (m w1) as [[e1|v] w2] end.
    + intros [= <- <-]. now exists e1.
    + discriminate.
Qed.

End WithHost.

(** X11. The payload of createModule is a complete record whatever the
    caller passes: exactly the six fields, the first four truthy, none
    dropped by JSON.stringify. In particular the module a failed lookup
    makes updateSurvey create is stored as Survey followed by the
    identifier, with the default description and status, whatever the module
    under that identifier was. *)
Theorem create_payload_is_complete (moduleData : obj) (createdAt updatedAt : string) :
  let payload := createPayload moduleData createdAt updatedAt in
  (map fst payload =
     ["name"; "description"; "status"; "surveyJson"; "createdAt"; "updatedAt"] /\
   (forall k, In k ["name"; "description"; "status"; "surveyJson"] ->
              truthy (get payload k) = true) /\
   json_body payload = payload) /\
  (forall (id : value) (surveyData : obj),
     moduleData = fallbackData id (updateData surveyData) ->
     get payload "name" = VStr ("Survey " ++ to_string id) /\
     get payload "description" = VStr "No description provided" /\
     get payload "status" = VStr "Active").
Proof.
  intros payload. subst payload. unfold createPayload, literal, assign. simpl.
  assert (Htruthy : forall a b, truthy b = true -> truthy (a ||| b) = true).
  { intros a b Hb. unfold or_else. destruct (truthy a) eqn:Ha; assumption. }
  assert (Hdefined : forall v, truthy v = true -> defined v = true).
  { intros v. destruct v; simpl; congruence. }
  split; [split; [reflexivity | split]|].
  - intros k [<-|[<-|[<-|[<-|[]]]]]; simpl; apply Htruthy; try reflexivity.
  - unfold json_body. simpl.
    rewrite (Hdefined (get moduleData "name" ||| VStr "Untitled Survey"))
      by (now apply Htruthy).
    rewrite (Hdefined (get moduleData "description" ||| VStr "No description provided"))
      by (now apply Htruthy).
    rewrite (Hdefined (get moduleData "status" ||| VStr "Active")) by (now apply Htruthy).
    rewrite (Hdefined (get moduleData "surveyJson" ||| get moduleData "form_data"
                       ||| sampleSurvey)) by (now apply Htruthy).
    reflexivity.
  - intros id surveyData ->.
    assert (Hother : forall k, k <> "name" ->
              k <> "surveyJson" -> k <> "form_data" ->
              get (fallbackData id (updateData surveyData)) k = VUndef).
    { intros k H1 H2 H3. unfold fallbackData. rewrite get_set_ne by congruence.
      unfold updateData. cbv zeta.
      destruct (truthy (get surveyData "surveyJson"));
        destruct (truthy (get surveyData "form_data"));
        repeat (rewrite get_set_ne by congruence); reflexivity. }
    assert (Hname : get (updateData surveyData) "name" = VUndef).
    { unfold updateData.
      destruct (truthy (get surveyData "surveyJson"));
        destruct (truthy (get surveyData "form_data")); reflexivity. }
    unfold fallbackData at 1. rewrite get_set_eq, Hname.
    rewrite !Hother by discriminate.
    unfold or_else; simpl.
    destruct (to_string id); repeat split; reflexivity.
Qed.

(** X28. createSurvey hands createModule the four fields name, description,
    status and surveyJson and nothing else, so a document passed to it as
    form_data is not read: unless surveyJson is truthy, what is stored is
    the sample survey of createModule. *)
Theorem createSurvey_reads_only_surveyJson `{Host} (surveyData : obj) :
  exists moduleData : obj,
    createSurvey surveyData = createModule moduleData /\
    forall createdAt updatedAt : string,
      let payload := createPayload moduleData createdAt updatedAt in
      get payload "surveyJson" = (get surveyData "surveyJson" ||| sampleSurvey) /\
      get payload "name" = (get surveyData "name" ||| VStr "Untitled Survey") /\
      get payload "description" =
        (get surveyData "description" ||| VStr "No description provided") /\
      get payload "status" = (get surveyData "status" ||| VStr "Active") /\
      has payload "form_data" = false.
Proof.
  eexists. split; [reflexivity|].
  intros createdAt updatedAt payload. subst payload.
  unfold createPayload, literal, assign. simpl.
  assert (Hor : forall a b, (a ||| b) ||| b = a ||| b).
  { intros a b. unfold or_else. destruct (truthy a) eqn:Ha; [now rewrite Ha|].
    destruct (truthy b); reflexivity. }
  split; [|split; [reflexivity|split; [reflexivity|split; [apply Hor|reflexivity]]]].
  unfold or_else. destruct (truthy (get surveyData "surveyJson")) eqn:Hs.
  - now rewrite Hs.
  - reflexivity.
Qed.


End ClientErrors.

(* ===================================================================== *)
(** ** Properties of the first revision of the client *)
(* ===================================================================== *)

Module ApiFacts.
Import JS Platform ObjFacts.

(** *** Spreads build well-formed records *)

Lemma set_keys (k : string) (v : value) (o : obj) :
  map fst (set k v o) = if has o k then map fst o else (map fst o ++ [k])%list.
Proof.
  induction o as [|[k' v'] rest IH]; simpl; [reflexivity|].
  destruct (k' =? k) eqn:E; simpl.
  - apply String.eqb_eq in E. now subst.
  - rewrite IH. destruct (has rest k); reflexivity.
Qed.

Lemma set_wf (k : string) (v : value) (o : obj) : wf o -> wf (set k v o).
Proof.
  unfold wf. intros Hwf. rewrite set_keys.
  destruct (has o k) eqn:Hk; [exact Hwf|].
  apply NoDup_app; [exact Hwf | repeat constructor; tauto |].
  intros x Hin [<-|[]].
  apply has_In in Hin. congruence.
Qed.

Lemma assign_wf (target src : obj) : wf target -> wf (assign target src).
Proof.
  unfold assign. revert target.
  induction src as [|[k v] rest IH]; intros target Hwf; simpl; [exact Hwf|].
  apply IH. now apply set_wf.
Qed.

Lemma wf_nil : wf [].
Proof. constructor. Qed.

(** A copy of a record holds what the record holds. *)
Lemma get_copy (o : obj) (k : string) : wf o -> get (assign [] o) k = get o k.
Proof.
  intros Hwf. destruct (has o k) eqn:Hk.
  - now apply get_assign_present.
  - rewrite get_assign_absent by exact Hk. simpl. symmetry. now apply has_false_get.
Qed.

Lemma has_json_body (o : obj) (k : string) :
  has (json_body o) k = true -> has o k = true.
Proof.
  unfold json_body. induction o as [|[k' v'] rest IH]; simpl; [auto|].
  destruct (defined v'); simpl.
  - destruct (k' =? k); simpl; auto.
  - intros Hin. rewrite (IH Hin). apply orb_true_r.
Qed.

(** JSON.stringify leaves out the property whose value is undefined. *)
Lemma json_body_drops_undefined (o : obj) (k : string) :
  wf o -> get o k = VUndef -> has (json_body o) k = false.
Proof.
  unfold wf.
  induction o as [|[k' v'] rest IH]; simpl; intros Hwf Hget; [reflexivity|].
  inversion Hwf as [|? ? Hnotin Hwf']; subst.
  destruct (k' =? k) eqn:E.
  - apply String.eqb_eq in E. subst k' v'. unfold json_body. simpl.
    fold (json_body rest).
    destruct (has (json_body rest) k) eqn:Hin; [|reflexivity].
    apply has_json_body, has_In in Hin. contradiction.
  - unfold json_body. simpl. fold (json_body rest).
    destruct (defined v'); simpl; [rewrite E; simpl|]; now apply IH.
Qed.

Section WithHost.
Context `{Host}.

(** X13. updateSurvey of the first revision is a read followed by a write of
    the whole record: once the stored module is fetched, the PUT carries the
    stored module with surveyJson replaced by the caller's and updatedAt by
    the current time, and every other field as stored. *)
Theorem first_client_update_is_read_then_write (id : value) (surveyData : obj)
    (existing : value) (t : string) (w w1 w2 : World) :
  Api.getModule id w = (inr existing, w1) ->
  wf (own existing) ->
  Date_toISOString w1 = (t, w2) ->
  let body := Api.updateBody (Api.merged existing surveyData) t in
  Api.updateSurvey id surveyData w =
    (response <- fetch (mkRequest PUT (UModule (to_string id)) (Some (json_body body))) ;;
     Api.expect_ok "Failed to update module" response) w2 /\
  get body "surveyJson" = get surveyData "surveyJson" /\
  get body "updatedAt" = VStr t /\
  (forall k, k <> "surveyJson" -> k <> "updatedAt" -> get body k = get (own existing) k).
Proof.
  intros Hget Hwf Hnow body.
  assert (Hmerged : wf (Api.merged existing surveyData)).
  { unfold Api.merged. apply set_wf, assign_wf, wf_nil. }
  split; [|split; [|split]].
  - unfold Api.updateSurvey, bind at 1. rewrite Hget.
    unfold Api.updateModule, bind, toISOString. rewrite Hnow. reflexivity.
  - subst body. unfold Api.updateBody. rewrite get_set_ne by discriminate.
    rewrite get_copy by exact Hmerged. unfold Api.merged. apply get_set_eq.
  - subst body. unfold Api.updateBody. apply get_set_eq.
  - intros k H1 H2. subst body. unfold Api.updateBody.
    rewrite get_set_ne by congruence. rewrite get_copy by exact Hmerged.
    unfold Api.merged. rewrite get_set_ne by congruence. now apply get_copy.
Qed.

(** X14. The first revision has no fallback: when the lookup is rejected or
    answered outside 2xx, updateSurvey fails in the world the lookup left,
    with nothing written and nothing created; for an answer outside 2xx the
    error is Failed to fetch module, whatever the status. *)
Theorem first_client_update_needs_the_stored_record (id : value) (surveyData : obj)
    (answer : string + Response) (w w1 : World) :
  fetch (mkRequest GET (UModule (to_string id)) None) w = (answer, w1) ->
  (forall response, answer = inr response -> ok response = false) ->
  exists e,
    Api.updateSurvey id surveyData w = (inl e, w1) /\
    (forall response, answer = inr response -> e = "Failed to fetch module").
Proof.
  intros Hfetch Hbad. unfold Api.updateSurvey, Api.getModule, bind. rewrite Hfetch.
  destruct answer as [e|response].
  - exists e. split; [reflexivity | discriminate].
  - unfold Api.expect_ok. rewrite (Hbad response eq_refl). simpl.
    eexists. split; [reflexivity | reflexivity].
Qed.

End WithHost.

(** X15. An update without a document erases the stored one: when the
    caller's data has no surveyJson, the body the first revision sends has
    no surveyJson property at all, whatever the stored module held. *)
Theorem first_client_update_without_document_drops_it (existing : value)
    (surveyData : obj) (t : string) :
  get surveyData "surveyJson" = VUndef ->
  has (json_body (Api.updateBody (Api.merged existing surveyData) t)) "surveyJson" = false.
Proof.
  intros Hmissing.
  assert (Hmerged : wf (Api.merged existing surveyData)).
  { unfold Api.merged. apply set_wf, assign_wf, wf_nil. }
  apply json_body_drops_undefined.
  - unfold Api.updateBody. apply set_wf, assign_wf, wf_nil.
  - unfold Api.updateBody. rewrite get_set_ne by discriminate.
    rewrite get_copy by exact Hmerged. unfold Api.merged.
    rewrite get_set_eq. exact Hmissing.
Qed.

(** X16. The two revisions of the client send the same update for a document
    given as surveyJson, but for the alias: over the same stored module and
    at the same time, the payload of the later revision agrees with the body
    of the first on every field other than form_data, where the later one
    has the document and the first what was stored. *)
Theorem client_revisions_agree_but_for_the_alias (existing : value) (doc : value)
    (t : string) :
  wf (own existing) ->
  truthy doc = true ->
  let later := Client.updatePayload existing (Client.updateData [("surveyJson", doc)]) t in
  let first := Api.updateBody (Api.merged existing [("surveyJson", doc)]) t in
  (forall k, k <> "form_data" -> get later k = get first k) /\
  get later "form_data" = doc /\
  get first "form_data" = get (own existing) "form_data".
Proof.
  intros Hwf Hdoc later first.
  assert (Hmerged : wf (Api.merged existing [("surveyJson", doc)])).
  { unfold Api.merged. apply set_wf, assign_wf, wf_nil. }
  assert (Hpatch : Client.updateData [("surveyJson", doc)] =
                   [("surveyJson", doc); ("form_data", doc)]).
  { unfold Client.updateData. simpl. rewrite Hdoc. reflexivity. }
  assert (Hlater : later = set "updatedAt" (VStr t)
                     (assign (own existing) [("surveyJson", doc); ("form_data", doc)])).
  { subst later. rewrite Hpatch. unfold Client.updatePayload. simpl. rewrite Hdoc.
    reflexivity. }
  assert (Hfirst : forall k, k <> "updatedAt" -> k <> "surveyJson" ->
                             get first k = get (own existing) k).
  { intros k H1 H2. subst first. unfold Api.updateBody.
    rewrite get_set_ne by congruence. rewrite get_copy by exact Hmerged.
    unfold Api.merged. rewrite get_set_ne by congruence. now apply get_copy. }
  split; [|split].
  - intros k Hk. rewrite Hlater.
    destruct (String.eqb_spec k "updatedAt") as [->|Hat].
    { subst first. unfold Api.updateBody. now rewrite !get_set_eq. }
    rewrite get_set_ne by congruence.
    destruct (String.eqb_spec k "surveyJson") as [->|Hsj].
    { subst first. unfold Api.updateBody. rewrite get_set_ne by discriminate.
      rewrite get_copy by exact Hmerged. unfold Api.merged. rewrite get_set_eq.
      unfold assign. simpl. rewrite get_set_ne by discriminate. apply get_set_eq. }
    rewrite Hfirst by assumption.
    apply get_assign_absent.
    cbn [has]. apply String.eqb_neq in Hk, Hsj.
    rewrite (String.eqb_sym "surveyJson" k), (String.eqb_sym "form_data" k), Hk, Hsj.
    reflexivity.
  - rewrite Hlater. rewrite get_set_ne by discriminate.
    unfold assign. simpl. apply get_set_eq.
  - apply Hfirst; discriminate.
Qed.

End ApiFacts.

(* ===================================================================== *)
(** ** Properties of the table view *)
(* ===================================================================== *)

Module AppFacts.
Import JS Platform App.

(** *** The duplicate banner *)



Section WithHost.
Context `{Host}.



(** *** The handlers *)

Variable getModules : M value.

Lemma loadModules_fields (s : State) (w : World) :
  let s' := fst (fst (loadModules getModules s w)) in
  loading s' = false /\ currentView s' = currentView s /\
  editingModule s' = editingModule s /\ viewMode s' = viewMode s.
Proof.
  unfold loadModules. destruct (getModules w) as [[e|data] w']; simpl; auto.
Qed.

Lemma loadModules_at_rest (s : State) (w : World) :
  (currentView s = "table" \/ currentView s = "builder") ->
  (currentView s = "table" -> editingModule s = VNull /\ viewMode s = "edit") ->
  at_rest (fst (fst (loadModules getModules s w))).
Proof.
  intros Hview Htable.
  destruct (loadModules_fields s w) as (Hl & Hv & He & Hm).
  unfold at_rest. rewrite Hl, Hv, He, Hm. auto.
Qed.

Lemma step_at_rest (deleteModule : value -> M value) (s : State) (w : World) (e : Event) :
  at_rest s -> at_rest (fst (fst (step getModules deleteModule s w e))).
Proof.
  intros Hs. pose proof Hs as (Hl & Hview & Htable). destruct e; simpl.
  - now apply loadModules_at_rest.
  - unfold at_rest; simpl. split; [exact Hl|]. split; [now right | discriminate].
  - unfold at_rest; simpl. split; [exact Hl|]. split; [now right | discriminate].
  - unfold at_rest; simpl. split; [exact Hl|]. split; [now right | discriminate].
  - unfold handleDeleteModule.
    destruct (deleteModule id w) as [[e|v] w1]; simpl; [exact Hs|].
    pose proof (loadModules_at_rest s w1 Hview Htable) as Hrest.
    destruct (loadModules getModules s w1) as [[s' out] w2]. exact Hrest.
  - unfold handleCleanupDuplicates_onOk.
    assert (Hfailed : at_rest (setLoading false (setLoading true s))).
    { unfold at_rest; simpl. auto. }
    destruct (rows (modules s)) as [loaded|]; [|exact Hfailed].
    destruct (ListView.handleCleanupDuplicates deleteModule loaded w) as [[n|] w1];
      [|exact Hfailed].
    pose proof (loadModules_at_rest (setLoading true s) w1 Hview Htable) as Hrest.
    destruct (loadModules getModules (setLoading true s) w1) as [[s' out] w2]. exact Hrest.
  - unfold handleBackToTable. apply loadModules_at_rest; simpl; auto.
  - exact Hs.
  - now apply loadModules_at_rest.
Qed.

(** X18. After every event the component is at rest, whatever the service
    answers: nothing is left loading, the view is the table or the builder,
    and the table is only shown with no module being edited and in edit
    mode. The builder is given the record of the row, whether it was opened
    by View or by Edit: the view mode is never passed on. *)
Theorem table_is_at_rest_after_every_event (deleteModule : value -> M value)
    (w : World) (events : list Event) :
  at_rest (fst (fst (run getModules deleteModule initial w events))) /\
  (forall (s : State) (record : value),
     render (handleViewModule record s) = AddModule_with record /\
     render (handleEditModule record s) = AddModule_with record).
Proof.
  split; [|intros s record; split; reflexivity].
  assert (Hinit : at_rest initial).
  { unfold at_rest, initial; simpl. auto. }
  revert Hinit. generalize initial as s. revert w.
  induction events as [|e rest IH]; intros w s Hs; simpl; [exact Hs|].
  pose proof (step_at_rest deleteModule s w e Hs) as Hstep.
  destruct (step getModules deleteModule s w e) as [[s1 out1] w1]. simpl in Hstep.
  specialize (IH w1 s1 Hstep).
  destruct (run getModules deleteModule s1 w1 rest) as [[s2 out2] w2]. exact IH.
Qed.

(** X19. A deletion that fails leaves the table as it is: when the DELETE is
    rejected, answered outside 2xx (404 for a module already gone) or
    answered with a body that does not parse, the component shows Failed to
    delete module, keeps its state, rows included, and does not reload the
    list (the world is the one the DELETE left). The same holds with the
    first revision of the client for every answer outside 2xx. *)
Theorem failed_delete_keeps_the_rows (id : value) (s : State)
    (answer : string + Response) (w w1 : World) :
  fetch (mkRequest DELETE (UModule (to_string id)) None) w = (answer, w1) ->
  (forall response, answer = inr response ->
                    ok response = false \/ exists e, json response = inl e) ->
  handleDeleteModule getModules Client.deleteModule id s w =
    (s, [Message_error "Failed to delete module"], w1) /\
  ((forall response, answer = inr response -> ok response = false) ->
   handleDeleteModule getModules Api.deleteModule id s w =
     (s, [Message_error "Failed to delete module"], w1)).
Proof.
  intros Hfetch Hbad. split.
  - unfold handleDeleteModule, Client.deleteModule, catch, bind. rewrite Hfetch.
    destruct answer as [e|response]; [reflexivity|].
    destruct (status response =? 404)%Z; [reflexivity|].
    unfold Client.handleResponse.
    destruct (Hbad response eq_refl) as [Hok|[e Hjson]].
    + rewrite Hok. reflexivity.
    + destruct (ok response); simpl; [|reflexivity]. rewrite Hjson. reflexivity.
  - intros Hstatus.
    unfold handleDeleteModule, Api.deleteModule, bind. rewrite Hfetch.
    destruct answer as [e|response]; [reflexivity|].
    unfold Api.expect_ok. rewrite (Hstatus response eq_refl). reflexivity.
Qed.

End WithHost.

End AppFacts.

(* ===================================================================== *)
(** ** Properties of the save triggers *)
(* ===================================================================== *)

Module TriggerFacts.
Import JS Platform Builder BuilderTrace.

Lemma acks_app (a b : list Output) : acks (a ++ b) = (acks a ++ acks b)%list.
Proof. unfold acks. apply flat_map_app. Qed.

Section WithHost.
Context `{Host}.

(** The machine a record is of. *)
Lemma machine_eta (m : Machine) :
  {| session := session m; inflight := inflight m; world := world m |} = m.
Proof. destruct m; reflexivity. Qed.

(** *** Every trigger is acknowledged once *)

Lemma call_acks (inst : Instance) (doc : value) (saveNo : nat) (s : Session) (m : Machine) :
  Permutation
    (acks (snd (call_saveSurveyFunc inst doc saveNo s m)) ++
     pending (fst (call_saveSurveyFunc inst doc saveNo s m)))
    (pending m ++ [saveNo]).
Proof.
  unfold call_saveSurveyFunc, pending.
  pose proof (SaveFacts.saveSurveyFunc_begin_cases inst doc saveNo s (world m)) as Hc.
  destruct (saveSurveyFunc_begin inst doc saveNo s (world m)) as [[s' out|s' out frame] w'];
    inversion Hc; subst; simpl; try apply Permutation_cons_append.
  rewrite map_app. reflexivity.
Qed.

Lemma resume_acks (inst : Instance) (frame : Frame) (r : string + value) (s : Session) :
  acks (snd (saveSurveyFunc_resume inst frame r s)) = [f_saveNo frame].
Proof.
  unfold saveSurveyFunc_resume, save_failed. destruct r as [message|result]; [reflexivity|].
  cbn [snd]. rewrite acks_app. simpl.
  match goal with |- context [if ?c then _ else _] => destruct c end; reflexivity.
Qed.

Lemma step_acks (m : Machine) (e : Event) (inst : Instance) :
  creator (session m) = Some inst ->
  Permutation (acks (snd (step m e)) ++ pending (fst (step m e)))
              (pending m ++ triggers [e]).
Proof.
  intros Hc. unfold step. rewrite Hc.
  destruct e as [doc saveNo|doc saveNo|]; simpl; try apply call_acks.
  rewrite app_nil_r.
  destruct (inflight m) as [|frame rest] eqn:Hin.
  - unfold pending. simpl. now rewrite Hin.
  - destruct (f_promise frame (world m)) as [r w'].
    pose proof (resume_acks inst frame r (session m)) as Hr.
    destruct (saveSurveyFunc_resume inst frame r (session m)) as [s' out].
    simpl in *. rewrite Hr. unfold pending. simpl. rewrite Hin. reflexivity.
Qed.

Lemma triggers_cons (e : Event) (rest : list Event) :
  triggers (e :: rest) = (triggers [e] ++ triggers rest)%list.
Proof. unfold triggers. simpl. now rewrite app_nil_r. Qed.

Lemma run_acks (events : list Event) (m : Machine) (inst : Instance) :
  creator (session m) = Some inst ->
  Permutation (acks (snd (run m events)) ++ pending (fst (run m events)))
              (pending m ++ triggers events).
Proof.
  revert m. induction events as [|e rest IH]; intros m Hc.
  - simpl. now rewrite app_nil_r.
  - rewrite triggers_cons. cbn [run].
    pose proof (step_acks m e inst Hc) as Hs.
    pose proof (SaveFacts.step_creator m e) as Hc1. rewrite Hc in Hc1.
    destruct (step m e) as [m1 out1]. cbn [fst snd] in Hs, Hc1.
    specialize (IH m1 Hc1). destruct (run m1 rest) as [m2 out2]. cbn [fst snd] in *.
    rewrite acks_app, <- app_assoc.
    rewrite (Permutation_app_head (acks out1) IH).
    rewrite app_assoc, Hs, <- app_assoc. reflexivity.
Qed.

(** X20. Every save the widget asks for is acknowledged exactly once: over
    any run of a mounted builder, the save numbers the acknowledgment
    callback was invoked with, together with those of the saves still
    suspended, are the save numbers of the triggers and key presses, each as
    often as it was asked for. *)
Theorem every_trigger_is_acknowledged_once (p : Props) (w : World) (events : list Event) :
  let r := run (start p w) events in
  Permutation (acks (snd r) ++ pending (fst r)) (triggers events).
Proof.
  intros r.
  pose proof (run_acks events (start p w) _ (SaveFacts.start_creator p w)) as Hr.
  exact Hr.
Qed.

(** *** The document the builder was opened with *)

Lemma unchanged_autosaves (m : Machine) (inst : Instance) (doc : value)
    (script : list (option nat)) :
  creator (session m) = Some inst ->
  inflight m = [] ->
  isSavingRef (session m) = false ->
  manualSaveRef (session m) = false ->
  lastSavedContentRef (session m) = JSON_stringify doc ->
  run m (autosaves doc script) =
    (m, flat_map (fun t => match t with
                           | Some saveNo => [Callback saveNo true]
                           | None => []
                           end) script).
Proof.
  intros Hc Hin Hfree Hauto Hsame.
  induction script as [|[saveNo|] rest IH]; [reflexivity| |].
  - cbn [autosaves map run flat_map].
    change (map _ rest) with (autosaves doc rest).
    assert (Hstep : step m (DoSave doc saveNo) = (m, [Callback saveNo true])).
    { unfold step. rewrite Hc. unfold call_saveSurveyFunc, saveSurveyFunc_begin.
      rewrite Hfree, Hsame, String.eqb_refl, Hauto. simpl. now rewrite machine_eta. }
    rewrite Hstep, IH. reflexivity.
  - cbn [autosaves map run flat_map].
    change (map _ rest) with (autosaves doc rest).
    assert (Hstep : step m Settle = (m, [])).
    { unfold step. rewrite Hc, Hin. reflexivity. }
    rewrite Hstep, IH. reflexivity.
Qed.

(** X21. A builder does not save the document it was opened with: as long as
    the widget's document serialises as the seeded content, every autosave
    trigger is acknowledged with success and changes nothing, whatever
    number of them arrive. *)
Theorem mounted_document_is_not_saved (p : Props) (w : World) (doc : value)
    (script : list (option nat)) :
  JSON_stringify doc = JSON_stringify (initialJson p ||| defaultJson) ->
  run (start p w) (autosaves doc script) =
    (start p w,
     flat_map (fun t => match t with
                        | Some saveNo => [Callback saveNo true]
                        | None => []
                        end) script).
Proof.
  intros Hsame.
  apply unchanged_autosaves with (inst := mkInstance p (currentModuleId (first_render p)));
    try reflexivity.
  simpl. now rewrite Hsame.
Qed.

(** *** Manual saves *)

(** X22. Ctrl+S saves whatever the content: with no save in flight, a
    document that is not empty and a service that has the method, the key
    press issues exactly one call and suspends, also when the content is the
    last one saved. *)
Theorem ctrl_s_saves_unchanged_content (m : Machine) (inst : Instance) (doc : value)
    (saveNo : nat) :
  creator (session m) = Some inst ->
  isSavingRef (session m) = false ->
  empty_document doc = false ->
  can_call inst = true ->
  exists frame w',
    step m (KeyDown_CtrlS doc saveNo) =
      ({| session := setSaveStatus "Saving..."
                       (set_isSaving true (set_manualSave true (session m)));
          inflight := (inflight m ++ [frame])%list;
          world := w' |},
       [Call (f_call frame)]) /\
    f_saveNo frame = saveNo /\
    f_currentContent frame = JSON_stringify doc.
Proof.
  intros Hc Hfree Hdoc Hcan. unfold step. rewrite Hc.
  unfold call_saveSurveyFunc, saveSurveyFunc_begin. simpl.
  rewrite Hfree, andb_false_r, Hdoc.
  unfold can_call in Hcan.
  destruct (p_apiService (inst_props inst)) as [api|]; [|discriminate].
  destruct (truthy (inst_currentModuleId inst)) eqn:Hid.
  - destruct (updateSurvey api) as [update|].
    + eexists (mkFrame _ _ _ _); eexists. split; [reflexivity|]. split; reflexivity.
    + destruct (createSurvey api) as [create|]; [|discriminate].
      destruct (if truthy (prop doc "title") then _ else _) as [surveyName w1].
      destruct (Date_toLocaleDateString w1) as [d2 w2].
      eexists (mkFrame _ _ _ _); eexists. split; [reflexivity|]. split; reflexivity.
  - destruct (createSurvey api) as [create|]; [|discriminate].
    destruct (if truthy (prop doc "title") then _ else _) as [surveyName w1].
    destruct (Date_toLocaleDateString w1) as [d2 w2].
    eexists (mkFrame _ _ _ _); eexists. split; [reflexivity|]. split; reflexivity.
Qed.

(** X23. Ctrl+S while a save is in flight saves nothing of its own: the key
    press is acknowledged with success at once, no call is issued and the
    world is untouched, but the flag it raised stays up. When the save in
    flight then succeeds, it is that save which is reported as the manual
    one: onSave is armed with its result. *)
Theorem ctrl_s_during_a_save_makes_it_manual (m : Machine) (inst : Instance)
    (frame : Frame) (doc : value) (saveNo : nat) (result : value) (w' : World) :
  creator (session m) = Some inst ->
  isSavingRef (session m) = true ->
  inflight m = [frame] ->
  p_onSave (inst_props inst) = true ->
  f_promise frame (world m) = (inr result, w') ->
  let pressed := {| session := set_manualSave true (session m);
                    inflight := [frame];
                    world := world m |} in
  step m (KeyDown_CtrlS doc saveNo) = (pressed, [Callback saveNo true]) /\
  snd (step pressed Settle) =
    [LocalStorage_setItem; Callback (f_saveNo frame) true; SetTimeout_clearStatus 2000;
     SetTimeout_onSave 1000 result] /\
  manualSaveRef (session (fst (step pressed Settle))) = false /\
  lastSavedContentRef (session (fst (step pressed Settle))) = f_currentContent frame /\
  inflight (fst (step pressed Settle)) = [].
Proof.
  intros Hc Hup Hin HonSave Hsettle pressed.
  assert (Hm : forall st result0, manualSaveRef
            (match f_call frame with
             | UpdateSurvey _ _ => setSaveStatus "Updated successfully!" st
             | CreateSurvey _ =>
                 setSaveStatus "Created successfully!"
                   (if truthy result0 && truthy (prop result0 "id")
                    then setCurrentModuleId (inst_props inst) (prop result0 "id") st
                    else st)
             end) = manualSaveRef st).
  { intros st result0. destruct (f_call frame); simpl; [|reflexivity].
    destruct (truthy result0 && truthy (prop result0 "id")); [|reflexivity].
    unfold setCurrentModuleId, effect; simpl. destruct (creator st); reflexivity. }
  split.
  - unfold step. rewrite Hc. unfold call_saveSurveyFunc, saveSurveyFunc_begin. simpl.
    rewrite Hup, Hin. reflexivity.
  - unfold step, pressed. simpl. rewrite Hc, Hsettle.
    unfold saveSurveyFunc_resume. simpl. rewrite Hm. simpl. rewrite HonSave.
    repeat split; reflexivity.
Qed.

Lemma begin_manual (inst : Instance) (doc : value) (saveNo : nat) (s : Session) (m : Machine) :
  manualSaveRef (session (fst (call_saveSurveyFunc inst doc saveNo s m))) = manualSaveRef s.
Proof.
  unfold call_saveSurveyFunc.
  pose proof (SaveFacts.saveSurveyFunc_begin_cases inst doc saveNo s (world m)) as Hc.
  destruct (saveSurveyFunc_begin inst doc saveNo s (world m)) as [[s' out|s' out frame] w'];
    inversion Hc; subst; reflexivity.
Qed.

(** X24. A manual save stays pending until some save succeeds: the manual
    flag, once raised, is lowered by no trigger, no key press and no
    failure, only by the settling of a call that succeeded; and that
    settling acknowledges success and, when onSave is a function, arms it
    with the result, whichever trigger had started the call. *)
Theorem manual_flag_falls_only_with_a_success (m : Machine) (e : Event) :
  manualSaveRef (session m) = true ->
  manualSaveRef (session (fst (step m e))) = false ->
  e = Settle /\
  exists inst frame rest result w',
    creator (session m) = Some inst /\
    inflight m = frame :: rest /\
    f_promise frame (world m) = (inr result, w') /\
    In (Callback (f_saveNo frame) true) (snd (step m e)) /\
    (p_onSave (inst_props inst) = true ->
     In (SetTimeout_onSave 1000 result) (snd (step m e))).
Proof.
  intros Hup Hdown. unfold step in *.
  destruct (creator (session m)) as [inst|] eqn:Hc; [|simpl in Hdown; congruence].
  destruct e as [doc saveNo|doc saveNo|].
  - rewrite begin_manual in Hdown. congruence.
  - rewrite begin_manual in Hdown. discriminate.
  - split; [reflexivity|].
    destruct (inflight m) as [|frame rest] eqn:Hin; [simpl in Hdown; congruence|].
    destruct (f_promise frame (world m)) as [[message|result] w'] eqn:Hsettle.
    + simpl in Hdown. congruence.
    + exists inst, frame, rest, result, w'.
      split; [reflexivity|]. split; [reflexivity|]. split; [exact Hsettle|].
      unfold saveSurveyFunc_resume. simpl.
      assert (Hm : manualSaveRef
                (match f_call frame with
                 | UpdateSurvey _ _ => setSaveStatus "Updated successfully!" (session m)
                 | CreateSurvey _ =>
                     setSaveStatus "Created successfully!"
                       (if truthy result && truthy (prop result "id")
                        then setCurrentModuleId (inst_props inst) (prop result "id") (session m)
                        else session m)
                 end) = true).
      { destruct (f_call frame); simpl; [|exact Hup].
        destruct (truthy result && truthy (prop result "id")); [|exact Hup].
        unfold setCurrentModuleId, effect; simpl. rewrite Hc. exact Hup. }
      rewrite Hm. split; [now right; left|].
      intros ->. simpl. auto.
Qed.

End WithHost.

End TriggerFacts.

(* ===================================================================== *)
(** ** Properties of the first revision of the builder *)
(* ===================================================================== *)

Module Builder1Facts.
Import JS Platform.

Section WithHost.
Context `{Host}.

(** X25. The first revision reports a save it did not make. When the service
    is missing, or has no method for the save, its save procedure calls
    nothing and acknowledges success (and calls onSave on a manual save);
    the second revision, in the same situation, fails the save with No API
    service available. *)
Theorem first_builder_reports_success_without_a_service (p : Builder.Props)
    (doc : value) (saveNo : nat) (manual : bool) (s : Builder.Session) (w : World) :
  match Builder.p_apiService p with
  | None => True
  | Some api => Builder.createSurvey api = None /\ Builder.updateSurvey api = None
  end ->
  Builder1.saveSurveyFunc_begin p doc saveNo manual w =
    (Builder1.Returned false
       ([Builder1.LocalStorage_setItem; Builder1.Callback saveNo true] ++
        (if manual && Builder.p_onSave p then [Builder1.OnSave] else []))%list, w) /\
  (Builder.isSavingRef s = false ->
   (JSON_stringify doc =? Builder.lastSavedContentRef s) && negb (Builder.manualSaveRef s)
     = false ->
   Builder.empty_document doc = false ->
   forall id,
   exists s',
     Builder.saveSurveyFunc_begin (Builder.mkInstance p id) doc saveNo s w =
       (Builder.Returned s' [Builder.SetTimeout_clearStatus 5000;
                             Builder.Callback saveNo false], w) /\
     Builder.saveStatus s' = "Save failed: No API service available").
Proof.
  intros Hnone. split.
  - unfold Builder1.saveSurveyFunc_begin, Builder1.saved.
    destruct (Builder.p_apiService p) as [api|].
    + destruct Hnone as [-> ->].
      destruct (truthy (Builder.p_surveyData p) &&
                truthy (prop (Builder.p_surveyData p) "id")); reflexivity.
    + destruct (truthy (Builder.p_surveyData p) &&
                truthy (prop (Builder.p_surveyData p) "id")); reflexivity.
  - intros Hfree Hchanged Hdoc id.
    unfold Builder.saveSurveyFunc_begin. rewrite Hfree, Hchanged, Hdoc. simpl.
    destruct (Builder.p_apiService p) as [api|].
    + destruct Hnone as [-> ->].
      destruct (truthy id); eexists; split; reflexivity.
    + destruct (truthy id); eexists; split; reflexivity.
Qed.

(** X26. The first revision has no guard: with a service that can create and
    a document that is an object, its save procedure issues one call on
    every invocation, whatever the manual flag and whatever was saved or is
    in flight, none of which it looks at. *)
Theorem first_builder_calls_on_every_trigger (p : Builder.Props) (api : Builder.ApiService)
    (create : obj -> M value) (doc : value) (saveNo : nat) (manual : bool) (w : World) :
  Builder.p_apiService p = Some api ->
  Builder.createSurvey api = Some create ->
  doc <> VNull -> doc <> VUndef ->
  exists frame w',
    Builder1.saveSurveyFunc_begin p doc saveNo manual w =
      (Builder1.Awaiting [Builder1.Call (Builder1.f_call frame)] frame, w') /\
    Builder1.f_saveNo frame = saveNo /\
    (Builder.is_create (Builder1.f_call frame) = false ->
     Builder1.f_call frame =
       Builder.UpdateSurvey (prop (Builder.p_surveyData p) "id")
                            (literal [("surveyJson", doc)])).
Proof.
  intros Hapi Hcreate Hnull Hundef.
  unfold Builder1.saveSurveyFunc_begin. rewrite Hapi, Hcreate.
  destruct (truthy (Builder.p_surveyData p) &&
            truthy (prop (Builder.p_surveyData p) "id")).
  - destruct (Builder.updateSurvey api) as [update|].
    + eexists (Builder1.mkFrame _ _ _); eexists. split; [reflexivity|]. split; [reflexivity|]. reflexivity.
    + destruct doc; try congruence;
        destruct (if truthy _ then _ else _) as [surveyName w1];
        destruct (Date_toLocaleDateString w1) as [d2 w2];
        eexists (Builder1.mkFrame _ _ _); eexists; (split; [reflexivity|]); (split; [reflexivity|]);
        simpl; discriminate.
  - destruct doc; try congruence;
      destruct (if truthy _ then _ else _) as [surveyName w1];
      destruct (Date_toLocaleDateString w1) as [d2 w2];
      eexists (Builder1.mkFrame _ _ _); eexists; (split; [reflexivity|]); (split; [reflexivity|]);
      simpl; discriminate.
Qed.

End WithHost.

End Builder1Facts.

(* ===================================================================== *)
(** ** Counting the deletions of the cleanup *)
(* ===================================================================== *)

Module SweepFacts.
Import JS Platform ListView.










Section WithHost.
Context `{Host}.



(** The head of a sorted group: the first, in the order of the list, of
    its most recent members. *)
Lemma sort_head (group : list obj) :
  (forall m, In m group -> stamp m <> None) ->
  match sort group with
  | [] => group = []
  | kept :: _ =>
      exists before after,
        group = (before ++ kept :: after)%list /\
        (forall m, In m before -> (time m < time kept)%Z) /\
        (forall m, In m after -> (time m <= time kept)%Z)
  end.
Proof.
  induction group as [|x rest IH]; intros Hvalid; [reflexivity|].
  assert (Hrest : forall m, In m rest -> stamp m <> None)
    by (intros m Hm; apply Hvalid; now right).
  specialize (IH Hrest). simpl.
  destruct (sort rest) as [|k tl] eqn:Hsort.
  - subst rest. simpl. exists [], []. split; [reflexivity|]. split; intros m [].
  - destruct IH as (before & after & -> & Hbefore & Hafter).
    simpl. rewrite ListFacts.behind_time.
    + destruct (Z.ltb_spec (time x) (time k)) as [Hlt|Hge].
      * exists (x :: before), after. split; [reflexivity|]. split; [|exact Hafter].
        intros m [<-|Hm]; [exact Hlt | now apply Hbefore].
      * exists [], (before ++ k :: after)%list. split; [reflexivity|].
        split; [intros m []|].
        intros m Hm. apply in_app_or in Hm as [Hm|[<-|Hm]].
        -- specialize (Hbefore m Hm). lia.
        -- lia.
        -- specialize (Hafter m Hm). lia.
    + apply Hvalid. now left.
    + apply Hvalid. right. apply in_or_app. right. now left.
Qed.

(** X29. Which module of a name the cleanup keeps: in a group of two or more
    modules with valid dates, the one spared is the most recent and, of
    several equally recent ones, the one that comes first in the loaded
    list; all the others of the group are handed to deleteModule. *)
Theorem cleanup_keeps_the_first_of_the_most_recent (group : list obj) :
  (1 < List.length group)%nat ->
  (forall m, In m group -> stamp m <> None) ->
  exists before kept after,
    group = (before ++ kept :: after)%list /\
    sort group = kept :: toDelete group /\
    Permutation (toDelete group) (before ++ after) /\
    (forall m, In m before -> (time m < time kept)%Z) /\
    (forall m, In m after -> (time m <= time kept)%Z).
Proof.
  intros Hmany Hvalid.
  pose proof (sort_head group Hvalid) as Hhead.
  pose proof (ListFacts.sort_perm group) as Hperm.
  unfold toDelete, slice1. apply Nat.ltb_lt in Hmany. rewrite Hmany.
  destruct (sort group) as [|kept deleted].
  - subst group. discriminate.
  - destruct Hhead as (before & after & Hsplit & Hbefore & Hafter).
    exists before, kept, after. simpl.
    split; [exact Hsplit|]. split; [reflexivity|]. split; [|split; assumption].
    rewrite Hsplit in Hperm.
    apply Permutation_cons_app_inv with (a := kept). exact Hperm.
Qed.


End WithHost.

End SweepFacts.

(* ===================================================================== *)
(** ** Further closed runs on the scripted host *)
(* ===================================================================== *)

Module Examples.
Import JS Platform Builder Scripted.

(** X6, witness: the probe is answered 503: getModules gives its advice and
    asks for nothing else. *)
Lemma unhealthy_probe_witness :
  let w := fresh [respond_text 503 "Service Unavailable"] in
  ClientHealth.getModules (H := host) ClientHealth.scripted_probe w =
    (inl ("Failed to fetch modules: " ++ ClientHealth.not_running), fresh []) /\
  sent (snd (ClientHealth.getModules (H := host) ClientHealth.scripted_probe w)) = [].
Proof.
  intros w. split; [|reflexivity].
  apply (HealthFacts.unhealthy_probe_stops_getModules (H := host)
           ClientHealth.scripted_probe w).
  intros probe Hprobe. injection Hprobe as <-. reflexivity.
Defined.

(** X9, witness: the backend is unreachable when module 7 is looked up, and
    is back for the next request: the update ends as a POST. *)
Lemma failed_lookup_witness :
  let patch := Client.updateData [("surveyJson", survey "B")] in
  let w := mkNet [inl "Failed to fetch"; respond 201 (storedModule 8 "Survey 7" (survey "B"))]
                 [] 0 in
  Client.updateModule (H := host) (VNum 7) patch w =
    Client.createModule (H := host) (Client.fallbackData (VNum 7) patch)
      (snd (fetch (mkRequest GET (UModule "7") None) w)) /\
  map req_method (sent (snd (Client.updateModule (H := host) (VNum 7) patch w))) =
    [GET; POST] /\
  fst (Client.updateModule (H := host) (VNum 7) patch w) =
    inr (storedModule 8 "Survey 7" (survey "B")).
Proof.
  intros patch w. split; [|split; reflexivity].
  apply (ClientErrors.failed_lookup_turns_update_into_create (H := host) (VNum 7) patch
           (inl "Failed to fetch") w).
  - reflexivity.
  - intros response Hr. discriminate Hr.
Defined.

(** X10, witness: module 7 is found and the PUT is answered 500; and module
    7 is missing and the POST of the fallback is answered 500. *)
Lemma updateModule_error_witness :
  let stored := storedModule 7 "Intake" (survey "Old") in
  let patch := [("surveyJson", survey "New")] in
  fst (Client.updateModule (H := host) (VNum 7) patch
         (fresh [respond 200 stored; respond_text 500 "boom"])) =
    inl "Failed to update module: HTTP 500: boom" /\
  fst (Client.updateModule (H := host) (VNum 7) patch
         (fresh [respond_text 404 "{}"; respond_text 500 "boom"])) =
    inl "Failed to create module: HTTP 500: boom" /\
  (exists reason, "Failed to update module: HTTP 500: boom" =
                  "Failed to update module: " ++ reason) /\
  (exists reason, "Failed to create module: HTTP 500: boom" =
                  "Failed to create module: " ++ reason).
Proof.
  intros stored patch. split; [reflexivity|]. split; [reflexivity|]. split.
  - exact (ClientErrors.updateModule_error_names_the_request (H := host) (VNum 7) patch
             (fresh [respond 200 stored; respond_text 500 "boom"])
             (snd (Client.updateModule (H := host) (VNum 7) patch
                     (fresh [respond 200 stored; respond_text 500 "boom"])))
             "Failed to update module: HTTP 500: boom" eq_refl).
  - exact (ClientErrors.updateModule_error_names_the_request (H := host) (VNum 7) patch
             (fresh [respond_text 404 "{}"; respond_text 500 "boom"])
             (snd (Client.updateModule (H := host) (VNum 7) patch
                     (fresh [respond_text 404 "{}"; respond_text 500 "boom"])))
             "Failed to create module: HTTP 500: boom" eq_refl).
Defined.

Lemma storedModule_wf (id : Z) (name : string) (surveyJson : value) :
  wf (own (storedModule id name surveyJson)).
Proof.
  unfold wf. simpl. repeat constructor; simpl; intuition discriminate.
Defined.

(** X13, witness: module 7 is stored; the first revision writes it back with
    the new document, its name and description untouched. *)
Lemma first_client_update_witness :
  let stored := storedModule 7 "Intake" (survey "Old") in
  let w := fresh [respond 200 stored; respond 200 stored] in
  let body := Api.updateBody (Api.merged stored [("surveyJson", survey "New")]) "T0" in
  map (fun q => (req_method q, req_body q))
      (sent (snd (Api.updateSurvey (H := host) (VNum 7) [("surveyJson", survey "New")] w))) =
    [(GET, None); (PUT, Some (json_body body))] /\
  get body "surveyJson" = survey "New" /\
  get body "updatedAt" = VStr "T0" /\
  get body "name" = VStr "Intake" /\
  get body "description" = VStr "Created on D0".
Proof.
  intros stored w body.
  destruct (ApiFacts.first_client_update_is_read_then_write (H := host) (VNum 7)
              [("surveyJson", survey "New")] stored "T0" w
              (snd (Api.getModule (H := host) (VNum 7) w))
              (snd (Date_toISOString (snd (Api.getModule (H := host) (VNum 7) w))))
              eq_refl (storedModule_wf 7 "Intake" (survey "Old")) eq_refl)
    as (_ & Hdoc & Hat & Hframe).
  split; [reflexivity|]. split; [exact Hdoc|]. split; [exact Hat|].
  split; apply Hframe; discriminate.
Defined.

(** X14, witness: module 7 is missing: the first revision fails and sends
    nothing but the lookup. *)
Lemma first_client_missing_witness :
  let w := fresh [respond_text 404 "{}"; respond 201 (storedModule 8 "A" (survey "A"))] in
  (exists e,
     Api.updateSurvey (H := host) (VNum 7) [("surveyJson", survey "New")] w =
       (inl e, snd (fetch (mkRequest GET (UModule "7") None) w)) /\
     (forall response, respond_text 404 "{}" = inr response -> e = "Failed to fetch module")) /\
  map req_method
      (sent (snd (Api.updateSurvey (H := host) (VNum 7) [("surveyJson", survey "New")] w))) =
    [GET].
Proof.
  intros w. split; [|reflexivity].
  apply (ApiFacts.first_client_update_needs_the_stored_record (H := host) (VNum 7)
           [("surveyJson", survey "New")] (respond_text 404 "{}") w).
  - reflexivity.
  - intros response Hr. injection Hr as <-. reflexivity.
Defined.

(** X15, witness: an update whose data names the document form_data only. *)
Lemma first_client_drops_document_witness :
  let stored := storedModule 7 "Intake" (survey "Old") in
  let body := Api.updateBody (Api.merged stored [("form_data", survey "New")]) "T0" in
  has (json_body body) "surveyJson" = false /\
  has (own stored) "surveyJson" = true.
Proof.
  intros stored body. split; [|reflexivity].
  apply (ApiFacts.first_client_update_without_document_drops_it stored
           [("form_data", survey "New")] "T0").
  reflexivity.
Defined.

(** X16, witness: module 7 and the document New, through both revisions. *)
Lemma client_revisions_witness :
  let stored := storedModule 7 "Intake" (survey "Old") in
  let later := Client.updatePayload stored (Client.updateData [("surveyJson", survey "New")])
                                    "T0" in
  let first := Api.updateBody (Api.merged stored [("surveyJson", survey "New")]) "T0" in
  get later "name" = get first "name" /\
  get later "surveyJson" = get first "surveyJson" /\
  get later "form_data" = survey "New" /\
  get first "form_data" = VUndef.
Proof.
  intros stored later first.
  destruct (ApiFacts.client_revisions_agree_but_for_the_alias stored (survey "New") "T0"
              (storedModule_wf 7 "Intake" (survey "Old")) eq_refl)
    as (Hsame & Hlater & Hfirst).
  split; [apply Hsame; discriminate|]. split; [apply Hsame; discriminate|].
  split; [exact Hlater | exact Hfirst].
Defined.



(** X19, witness: the row of module 7 is still in the table when the backend
    no longer has the module: the DELETE is answered 404. *)
Lemma failed_delete_witness :
  let s := App.setModules (VArr [storedModule 7 "Intake" (survey "Intake")]) App.initial in
  let w := fresh [respond_text 404 "{}"; respond 200 (VArr []); respond 200 (VArr [])] in
  let getModules := ClientHealth.getModules (H := host) ClientHealth.scripted_probe in
  App.handleDeleteModule getModules Client.deleteModule (VNum 7) s w =
    (s, [App.Message_error "Failed to delete module"],
     snd (fetch (mkRequest DELETE (UModule "7") None) w)) /\
  App.handleDeleteModule getModules Api.deleteModule (VNum 7) s w =
    (s, [App.Message_error "Failed to delete module"],
     snd (fetch (mkRequest DELETE (UModule "7") None) w)).
Proof.
  intros s w getModules.
  destruct (@AppFacts.failed_delete_keeps_the_rows host getModules (VNum 7) s
              (respond_text 404 "{}") w
              (snd (scripted_fetch (mkRequest DELETE (UModule "7") None) w)) eq_refl)
    as [Hlater Hfirst].
  - intros response Hr. injection Hr as <-. now left.
  - split; [exact Hlater|]. apply Hfirst.
    intros response Hr. injection Hr as <-. reflexivity.
Defined.

(** X21, witness: the builder opened from Edit on module 7, whose widget
    holds the stored document. *)
Lemma mounted_document_witness :
  run (start editSurvey (fresh [])) (autosaves (survey "Intake") [Some 1; Some 2; None]) =
    (start editSurvey (fresh []), [Callback 1 true; Callback 2 true]).
Proof.
  apply (TriggerFacts.mounted_document_is_not_saved (H := host) editSurvey (fresh [])
           (survey "Intake") [Some 1; Some 2; None]).
  reflexivity.
Defined.

(** X22, witness: the same builder and document, and Ctrl+S. *)
Lemma ctrl_s_witness :
  exists frame w',
    step (start editSurvey (fresh [])) (KeyDown_CtrlS (survey "Intake") 1) =
      ({| session := setSaveStatus "Saving..."
                       (set_isSaving true (set_manualSave true (mount editSurvey)));
          inflight := [frame];
          world := w' |},
       [Call (f_call frame)]) /\
    f_saveNo frame = 1%nat /\
    f_currentContent frame = JSON_stringify (survey "Intake").
Proof.
  apply (TriggerFacts.ctrl_s_saves_unchanged_content (H := host)
           (start editSurvey (fresh [])) (mkInstance editSurvey (VNum 7))
           (survey "Intake") 1); reflexivity.
Defined.

(** X23, witness: a new builder whose first autosave is in flight when
    Ctrl+S is pressed on another document; the create then answers with
    module 1. *)
Lemma ctrl_s_during_a_save_witness :
  let arg := literal [("name", VStr "A"); ("description", VStr "Created on D0");
                      ("status", VStr "Active"); ("surveyJson", survey "A")] in
  let frame := mkFrame 1 (JSON_stringify (survey "A")) (CreateSurvey arg)
                       (Client.createSurvey arg) in
  let w := fresh [respond 201 (storedModule 1 "A" (survey "A"))] in
  let m := fst (run (start newSurvey w) [DoSave (survey "A") 1]) in
  let pressed := {| session := set_manualSave true (session m);
                    inflight := [frame];
                    world := world m |} in
  inflight m = [frame] /\
  step m (KeyDown_CtrlS (survey "B") 2) = (pressed, [Callback 2 true]) /\
  snd (step pressed Settle) =
    [LocalStorage_setItem; Callback 1 true; SetTimeout_clearStatus 2000;
     SetTimeout_onSave 1000 (storedModule 1 "A" (survey "A"))] /\
  sent (world (fst (step pressed Settle))) =
    [mkRequest POST UModules
       (Some (json_body (Client.createPayload
                           (literal [("name", VStr "A");
                                     ("description", VStr "Created on D0");
                                     ("status", VStr "Active");
                                     ("surveyJson", survey "A")]) "T1" "T2")))].
Proof.
  intros arg frame w m pressed.
  destruct (TriggerFacts.ctrl_s_during_a_save_makes_it_manual (H := host) m
              (mkInstance newSurvey VNull) frame (survey "B") 2
              (storedModule 1 "A" (survey "A")) (snd (f_promise frame (world m)))
              eq_refl eq_refl eq_refl eq_refl eq_refl)
    as (Hpress & Hout & _).
  split; [reflexivity|]. split; [exact Hpress|]. split; [exact Hout|]. reflexivity.
Defined.

(** X24, witness: the settling of that save is what lowers the flag. *)
Lemma manual_flag_witness :
  let arg := literal [("name", VStr "A"); ("description", VStr "Created on D0");
                      ("status", VStr "Active"); ("surveyJson", survey "A")] in
  let frame := mkFrame 1 (JSON_stringify (survey "A")) (CreateSurvey arg)
                       (Client.createSurvey arg) in
  let w := fresh [respond 201 (storedModule 1 "A" (survey "A"))] in
  let m := fst (run (start newSurvey w) [DoSave (survey "A") 1; KeyDown_CtrlS (survey "B") 2]) in
  manualSaveRef (session m) = true /\
  manualSaveRef (session (fst (step m Settle))) = false /\
  exists inst frame rest result w',
    creator (session m) = Some inst /\
    inflight m = frame :: rest /\
    f_promise frame (world m) = (inr result, w') /\
    In (Callback (f_saveNo frame) true) (snd (step m Settle)) /\
    (p_onSave (inst_props inst) = true ->
     In (SetTimeout_onSave 1000 result) (snd (step m Settle))).
Proof.
  intros arg frame w m.
  split; [reflexivity|]. split; [reflexivity|].
  exact (proj2 (TriggerFacts.manual_flag_falls_only_with_a_success (H := host) m Settle
                  eq_refl eq_refl)).
Defined.

(** X25, witness: a builder given no service at all, in both revisions. *)
Lemma no_service_witness :
  let p := mkProps VUndef VNull true None None in
  Builder1.saveSurveyFunc_begin (H := host) p (survey "A") 1 true (fresh []) =
    (Builder1.Returned false
       [Builder1.LocalStorage_setItem; Builder1.Callback 1 true; Builder1.OnSave],
     fresh []) /\
  exists s',
    saveSurveyFunc_begin (mkInstance p VNull) (survey "A") 1 (mount p) (fresh []) =
      (Returned s' [SetTimeout_clearStatus 5000; Callback 1 false], fresh []) /\
    saveStatus s' = "Save failed: No API service available".
Proof.
  intros p.
  destruct (Builder1Facts.first_builder_reports_success_without_a_service (H := host)
              p (survey "A") 1 true (mount p) (fresh []) I) as [Hfirst Hsecond].
  split; [exact Hfirst|].
  apply Hsecond; reflexivity.
Defined.

(** X26, witness: the first revision of the builder on a new survey: two
    triggers on the same document, two calls. *)
Lemma every_trigger_calls_witness :
  (exists frame w',
     Builder1.saveSurveyFunc_begin (H := host) newSurvey (survey "A") 1 false (fresh []) =
       (Builder1.Awaiting [Builder1.Call (Builder1.f_call frame)] frame, w') /\
     Builder1.f_saveNo frame = 1%nat /\
     (is_create (Builder1.f_call frame) = false ->
      Builder1.f_call frame =
        UpdateSurvey (prop (p_surveyData newSurvey) "id")
                     (literal [("surveyJson", survey "A")]))) /\
  Builder1.calls
    (match fst (Builder1.saveSurveyFunc_begin (H := host) newSurvey (survey "A") 1 false
                  (fresh [])) with
     | Builder1.Awaiting out _ => out
     | Builder1.Returned _ out => out
     end ++
     match fst (Builder1.saveSurveyFunc_begin (H := host) newSurvey (survey "A") 2 false
                  (fresh [])) with
     | Builder1.Awaiting out _ => out
     | Builder1.Returned _ out => out
     end) =
    [CreateSurvey (literal [("name", VStr "A"); ("description", VStr "Created on D0");
                            ("status", VStr "draft"); ("surveyJson", survey "A")]);
     CreateSurvey (literal [("name", VStr "A"); ("description", VStr "Created on D0");
                            ("status", VStr "draft"); ("surveyJson", survey "A")])].
Proof.
  split; [|reflexivity].
  apply (Builder1Facts.first_builder_calls_on_every_trigger (H := host) newSurvey
           apiService Client.createSurvey (survey "A") 1 false (fresh []));
    try reflexivity; discriminate.
Defined.

(** X29, witness: three modules named A, the last two equally recent: the
    second is kept. *)
Lemma cleanup_keeps_witness :
  let a1 := [("name", VStr "A"); ("updatedAt", VStr "1000"); ("id", VNum 1)] in
  let a2 := [("name", VStr "A"); ("updatedAt", VStr "2000"); ("id", VNum 2)] in
  let a3 := [("name", VStr "A"); ("updatedAt", VStr "2000"); ("id", VNum 3)] in
  (exists before kept after,
     [a1; a2; a3] = (before ++ kept :: after)%list /\
     ListView.sort [a1; a2; a3] = kept :: ListView.toDelete [a1; a2; a3] /\
     Permutation (ListView.toDelete [a1; a2; a3]) (before ++ after) /\
     (forall m, In m before -> (ListView.time m < ListView.time kept)%Z) /\
     (forall m, In m after -> (ListView.time m <= ListView.time kept)%Z)) /\
  ListView.sort [a1; a2; a3] = [a2; a3; a1].
Proof.
  intros a1 a2 a3. split; [|reflexivity].
  apply (SweepFacts.cleanup_keeps_the_first_of_the_most_recent (H := host) [a1; a2; a3]).
  - simpl. lia.
  - intros m [<-|[<-|[<-|[]]]]; discriminate.
Defined.

End Examples.
